(** * Node wrapper of the issuer side of credential issuance

    A shallow embedding of [wrappers/node/src/api/issuer-credential.ts]:
    the [IssuerCredential] class, the promises it builds around the
    callbacks of the native library, and the native library itself as an
    abstract engine answering each call with a status and a callback.

    Strings are byte strings. An async function is a state-passing
    computation that ends or suspends at its [await]; the promise of a
    native call is settled by the executor and by the callback the engine
    invokes. What the class uses from modules outside this file (the base
    class, the bridge helper, the error type, the engine) is modelled
    from the specification and marked so. *)

From stdpp Require Import base gmap list strings.
From Stdlib Require Import ZArith String Ascii.

Local Open Scope string_scope.
Local Open Scope Z_scope.

(** ** State passing *)

Definition ST (S A : Type) : Type := S -> A * S.

Definition ret {S A : Type} (a : A) : ST S A := fun s => (a, s).

Definition bind {S A B : Type} (m : ST S A) (f : A -> ST S B) : ST S B :=
  fun s => let (a, s') := m s in f a s'.

Notation "'let*' x ':=' c1 'in' c2" := (bind c1 (fun x => c2))
  (at level 10, x name, c1 at level 100, c2 at level 200).

(** ** Values a JavaScript [throw] or [reject] can carry *)

(** Modelled from the spec: [VCXInternalError] (module [../errors]) is the
    single application-visible error type; it is built from the failure it
    wraps and carries it. The other constructors are plain JavaScript
    values: [Code rc] is a number handed to [reject], [Reason s] a string
    handed to [reject], [JsError msg] the object built by [Error(msg)]. *)
Inductive thrown : Type :=
| Code (rc : Z)
| Reason (s : string)
| JsError (msg : string)
| VCXInternalError (cause : thrown).

(** ** Promises *)

Inductive settlement (T : Type) : Type :=
| Pending
| Resolved (v : T)
| Rejected (e : thrown).

Arguments Pending {T}.
Arguments Resolved {T} v.
Arguments Rejected {T} e.

(** A promise settles once: later calls of [resolve] or [reject] change
    nothing. *)
Definition settle {T : Type} (new cur : settlement T) : settlement T :=
  match cur with
  | Pending => new
  | _ => cur
  end.

Definition is_settled {T : Type} (s : settlement T) : bool :=
  match s with
  | Pending => false
  | _ => true
  end.

(** JavaScript truthiness of a number ([if (rc)], [if (err)]) and
    falsiness of a string that may be null ([if (!message)]). *)
Definition truthy (n : Z) : bool := negb (n =? 0).

Definition falsy (s : option string) : bool :=
  match s with
  | None => true
  | Some s => String.eqb s ""
  end.

(** ** JSON.stringify on a string *)

Definition dquote : ascii := ascii_of_nat 34.
Definition backslash : ascii := ascii_of_nat 92.

Definition hex_digit (n : N) : ascii :=
  if (n <? 10)%N then ascii_of_N (48 + n) else ascii_of_N (87 + n).

(** The escape of one code unit: the two-character escapes, [\u00XX] for
    the other control characters, the character itself otherwise. *)
Definition json_escape (c : ascii) : string :=
  let n := N_of_ascii c in
  if (n =? 8)%N then String backslash "b"
  else if (n =? 9)%N then String backslash "t"
  else if (n =? 10)%N then String backslash "n"
  else if (n =? 12)%N then String backslash "f"
  else if (n =? 13)%N then String backslash "r"
  else if (n =? 34)%N then String backslash (String dquote "")
  else if (n =? 92)%N then String backslash (String backslash "")
  else if (n <? 32)%N then
    String backslash
      (String "u" (String "0" (String "0"
        (String (hex_digit (n / 16)) (String (hex_digit (n mod 16)) "")))))
  else String c "".

Fixpoint json_escape_all (s : string) : string :=
  match s with
  | EmptyString => ""
  | String c rest => json_escape c +:+ json_escape_all rest
  end.

Definition JSON_stringify_string (s : string) : string :=
  String dquote (json_escape_all s +:+ String dquote "").

(** Reading a JSON string literal back. *)
Definition hex_value (c : ascii) : option N :=
  let n := N_of_ascii c in
  if ((48 <=? n) && (n <=? 57))%N then Some (n - 48)%N
  else if ((97 <=? n) && (n <=? 102))%N then Some (n - 87)%N
  else None.

(** The characters up to the closing quote, escapes undone. *)
Fixpoint json_unescape_all (s : string) : option string :=
  match s with
  | EmptyString => None
  | String c rest =>
      if Ascii.eqb c dquote then
        match rest with
        | EmptyString => Some ""
        | String _ _ => None
        end
      else if Ascii.eqb c backslash then
        match rest with
        | String d rest1 =>
            if Ascii.eqb d "b" then
              option_map (String (ascii_of_nat 8)) (json_unescape_all rest1)
            else if Ascii.eqb d "t" then
              option_map (String (ascii_of_nat 9)) (json_unescape_all rest1)
            else if Ascii.eqb d "n" then
              option_map (String (ascii_of_nat 10)) (json_unescape_all rest1)
            else if Ascii.eqb d "f" then
              option_map (String (ascii_of_nat 12)) (json_unescape_all rest1)
            else if Ascii.eqb d "r" then
              option_map (String (ascii_of_nat 13)) (json_unescape_all rest1)
            else if Ascii.eqb d dquote then
              option_map (String dquote) (json_unescape_all rest1)
            else if Ascii.eqb d backslash then
              option_map (String backslash) (json_unescape_all rest1)
            else if Ascii.eqb d "u" then
              match rest1 with
              | String h1 (String h2 (String h3 (String h4 rest2))) =>
                  match hex_value h1, hex_value h2,
                        hex_value h3, hex_value h4 with
                  | Some 0%N, Some 0%N, Some a, Some b =>
                      option_map (String (ascii_of_N (16 * a + b)))
                        (json_unescape_all rest2)
                  | _, _, _, _ => None
                  end
              | _ => None
              end
            else None
        | EmptyString => None
        end
      else option_map (String c) (json_unescape_all rest)
  end.

Definition JSON_parse_string (t : string) : option string :=
  match t with
  | String q body =>
      if Ascii.eqb q dquote then json_unescape_all body else None
  | EmptyString => None
  end.

(** ** Data of the class *)

(** [attr]: a mapping from attribute name to value, in insertion order. *)
Definition IIssuerCredentialVCXAttributes : Type := list (string * string).

Record IIssuerCredentialCreateData : Type := {
  cd_sourceId : string;
  cd_credDefHandle : Z;
  cd_attr : option IIssuerCredentialVCXAttributes;
  cd_credentialName : string;
  cd_price : string;
  cd_issuerDid : string
}.

Record IIssuerCredentialParams : Type := {
  p_credDefHandle : Z;
  p_credentialName : string;
  p_attr : option IIssuerCredentialVCXAttributes;
  p_price : string
}.

(** [issuer_sm] is an object the engine defines; the wrapper never looks
    inside, so it is kept as the engine's text. *)
Record IIssuerCredentialData : Type := {
  issuer_sm : string;
  source_id : string
}.

Record ISerializedData : Type := {
  version : string;
  data : IIssuerCredentialData
}.

Record IssuerCredentialPaymentManager : Type := {
  pm_handle : Z
}.

Record IssuerCredential : Type := {
  sourceId : string;
  handle : option Z;
  paymentManager : option IssuerCredentialPaymentManager;
  _credDefHandle : Z;
  _credentialName : string;
  _attr : option IIssuerCredentialVCXAttributes;
  _price : string
}.

Record Connection : Type := {
  connection_handle : Z
}.

(** ** The native library *)

(** One constructor per entry of [rustAPI()] the class uses, with the
    arguments of the call site; the first argument is the command handle,
    the callback reference is passed beside the call. *)
Inductive native_call : Type :=
| vcx_issuer_create_credential
    (command_handle : Z) (source_id : string) (cred_def_handle : Z)
    (issuer_did : string) (attrs : option string) (name price : string)
| vcx_issuer_send_credential_offer
    (command_handle : Z) (h : option Z) (connection : Z)
| vcx_issuer_get_credential_offer_msg (command_handle : Z) (h : option Z)
| vcx_issuer_credential_get_thread_id (command_handle : Z) (h : option Z)
| vcx_issuer_send_credential
    (command_handle : Z) (h : option Z) (connection : Z)
| vcx_issuer_get_credential_msg
    (command_handle : Z) (h : option Z) (my_pw_did : string)
| vcx_issuer_revoke_credential (command_handle : Z) (h : option Z)
| vcx_issuer_revoke_credential_local (command_handle : Z) (h : option Z)
| vcx_issuer_credential_get_rev_reg_id (command_handle : Z) (h : option Z)
| vcx_issuer_credential_deserialize
    (command_handle : Z) (serialized : ISerializedData)
| vcx_issuer_credential_serialize (command_handle : Z) (h : option Z)
| vcx_issuer_credential_get_state (command_handle : Z) (h : option Z)
| vcx_v2_issuer_credential_update_state
    (command_handle : Z) (h : option Z) (connection : Z).

Definition command_handle_of (c : native_call) : Z :=
  match c with
  | vcx_issuer_create_credential ch _ _ _ _ _ _
  | vcx_issuer_send_credential_offer ch _ _
  | vcx_issuer_get_credential_offer_msg ch _
  | vcx_issuer_credential_get_thread_id ch _
  | vcx_issuer_send_credential ch _ _
  | vcx_issuer_get_credential_msg ch _ _
  | vcx_issuer_revoke_credential ch _
  | vcx_issuer_revoke_credential_local ch _
  | vcx_issuer_credential_get_rev_reg_id ch _
  | vcx_issuer_credential_deserialize ch _
  | vcx_issuer_credential_serialize ch _
  | vcx_issuer_credential_get_state ch _
  | vcx_v2_issuer_credential_update_state ch _ _ => ch
  end.

(** What the engine hands to a callback after the command handle and the
    error code: nothing, a C string (possibly the null pointer), a
    number, or the text of a serialized object. *)
Inductive payload : Type :=
| NoValue
| Str (s : option string)
| Num (n : Z)
| Serialized (d : ISerializedData).

Record callback_args : Type := {
  xcommand_handle : Z;
  err : Z;
  arg : payload
}.

(** A callback declared with a ['string'] (resp. ['uint32']) third
    argument reads it as such. *)
Definition as_string (p : payload) : option string :=
  match p with
  | Str s => s
  | _ => None
  end.

Definition as_number (p : payload) : Z :=
  match p with
  | Num n => n
  | _ => 0
  end.

(** The answer to one call: the status returned at once, and the
    arguments of the one callback invocation that follows, if any does. *)
Record native_response : Type := {
  rc : Z;
  reply : option callback_args
}.

Record Engine : Type := {
  estate : Type;
  invoke : native_call -> estate -> native_response * estate
}.

(** A synchronous computation either completes or throws. *)
Inductive completion (A : Type) : Type :=
| Normal (a : A)
| Throw (e : thrown).

Arguments Normal {A} a.
Arguments Throw {A} e.

Section Wrapper.

(** The native library behind [rustAPI()]. *)
Variable E : Engine.

(** [JSON.stringify] on an attribute mapping: its text, or what it throws. *)
Variable JSON_stringify : IIssuerCredentialVCXAttributes -> completion string.

(** ** The world the wrapper runs in *)

(** The engine, the calls made so far, and the callback references the
    engine currently holds: each with the call it was passed to and the
    arguments the engine will invoke it with, if it ever does. *)
Record world : Type := {
  engine : estate E;
  trace : list native_call;
  inflight : gmap nat (native_call * option callback_args);
  next_slot : nat
}.

Definition M : Type -> Type := ST world.

(** A call through the function table: the engine answers, the call is
    logged and the callback reference [cb] is left with the engine. *)
Definition rustAPI (c : native_call) (cb : nat) : M Z :=
  fun w =>
    let (r, e') := invoke E c (engine w) in
    (rc r,
     {| engine := e';
        trace := trace w ++ [c];
        inflight := <[cb := (c, reply r)]> (inflight w);
        next_slot := next_slot w |}).

Definition fresh_slot : M nat :=
  fun w =>
    (next_slot w,
     {| engine := engine w;
        trace := trace w;
        inflight := inflight w;
        next_slot := S (next_slot w) |}).

Definition release_slot (s : nat) (w : world) : world :=
  {| engine := engine w;
     trace := trace w;
     inflight := delete s (inflight w);
     next_slot := next_slot w |}.

(** ** Promise executors and callbacks *)

(** Code that runs with a promise under construction: it sees the world
    and the promise's settlement. *)
Definition P (T : Type) : Type -> Type := ST (world * settlement T).

Definition native {T A : Type} (m : M A) : P T A :=
  fun s => let (a, w') := m (fst s) in (a, (w', snd s)).

Definition resolve {T : Type} (v : T) : P T unit :=
  fun s => (tt, (fst s, settle (Resolved v) (snd s))).

Definition reject {T : Type} (e : thrown) : P T unit :=
  fun s => (tt, (fst s, settle (Rejected e) (snd s))).

Record promise (T : Type) : Type := {
  slot : nat;
  cell : settlement T;
  on_callback : callback_args -> P T unit
}.

Arguments slot {T} p.
Arguments cell {T} p.
Arguments on_callback {T} p.

(** Modelled from the spec: [createFFICallbackPromise] of
    [../utils/ffi-helpers] is the bridge of one native call. It builds
    the callback with the promise's [resolve] and [reject], runs [fn] with
    them and the callback's reference, and returns the promise; [fn] may
    already have settled it. *)
Definition createFFICallbackPromise {T : Type}
    (fn : (T -> P T unit) -> (thrown -> P T unit) -> nat -> P T unit)
    (cb : (T -> P T unit) -> (thrown -> P T unit) -> callback_args -> P T unit)
    : M (promise T) :=
  let* cbRef := fresh_slot in
  fun w =>
    let (_, s) := fn resolve reject cbRef (w, Pending) in
    ({| slot := cbRef; cell := snd s; on_callback := cb resolve reject |},
     fst s).

(** Waiting on a bridge promise: the engine invokes the callback it holds
    for this call, once, with the arguments it chose; the reference is
    dropped when the callback has run or the promise is settled. *)
Definition deliver {T : Type} (p : promise T) : M (settlement T) :=
  fun w =>
    match inflight w !! slot p with
    | Some (_, Some args) =>
        let (_, s) := on_callback p args (w, cell p) in
        (snd s, release_slot (slot p) (fst s))
    | _ =>
        (cell p, if is_settled (cell p) then release_slot (slot p) w else w)
    end.

(** ** Async functions *)

(** An async function of this class has run to its end, or is suspended
    at its one [await] with what it does with the awaited settlement. *)
Inductive async (T : Type) : Type :=
| Return (s : settlement T)
| Await {X : Type} (p : promise X) (k : settlement X -> settlement T).

Arguments Return {T} s.
Arguments Await {T X} p k.

Definition throw {T : Type} (e : thrown) : settlement T := Rejected e.

(** [await p], then [f] on the value. *)
Definition await_then {X T : Type} (p : promise X) (f : X -> T) : async T :=
  Await p (fun r =>
    match r with
    | Pending => Pending
    | Resolved x => Resolved (f x)
    | Rejected e => Rejected e
    end).

Definition catch {T : Type} (handler : thrown -> settlement T)
    (s : settlement T) : settlement T :=
  match s with
  | Rejected e => handler e
  | _ => s
  end.

(** [try { body } catch (err) { handler }] around the whole body. *)
Definition try_catch {T : Type} (body : M (async T))
    (handler : thrown -> settlement T) : M (async T) :=
  let* a := body in
  ret (match a with
       | Return s => Return (catch handler s)
       | Await p k => Await p (fun r => catch handler (k r))
       end).

(** The settlement visible before any callback has run. *)
Definition settled_now {T : Type} (a : async T) : settlement T :=
  match a with
  | Return s => s
  | Await p k => k (cell p)
  end.

(** Running an async function to the end of its await. *)
Definition run {T : Type} (op : M (async T)) : M (settlement T) :=
  let* a := op in
  match a with
  | Return s => ret s
  | Await p k => let* r := deliver p in ret (k r)
  end.

(** ** The class IssuerCredential *)

(** [constructor(sourceId, { credDefHandle, credentialName, attr, price })];
    the handle and the payment manager are not set yet. *)
Definition new_IssuerCredential (sourceId : string)
    (params : IIssuerCredentialParams) : IssuerCredential :=
  {| sourceId := sourceId;
     handle := None;
     paymentManager := None;
     _credDefHandle := p_credDefHandle params;
     _credentialName := p_credentialName params;
     _attr := p_attr params;
     _price := p_price params |}.

(** Modelled from the spec: [_setHandle] of the base class stores the
    native handle in the object. *)
Definition super_setHandle (h : Z) (this : IssuerCredential)
    : IssuerCredential :=
  {| sourceId := sourceId this;
     handle := Some h;
     paymentManager := paymentManager this;
     _credDefHandle := _credDefHandle this;
     _credentialName := _credentialName this;
     _attr := _attr this;
     _price := _price this |}.

(** Modelled from the spec: the constructor of [PaymentManager] keeps the
    handle it is given. *)
Definition new_IssuerCredentialPaymentManager (h : Z)
    : IssuerCredentialPaymentManager :=
  {| pm_handle := h |}.

Definition _setHandle (h : Z) (this : IssuerCredential) : IssuerCredential :=
  let this := super_setHandle h this in
  {| sourceId := sourceId this;
     handle := handle this;
     paymentManager := Some (new_IssuerCredentialPaymentManager h);
     _credDefHandle := _credDefHandle this;
     _credentialName := _credentialName this;
     _attr := _attr this;
     _price := _price this |}.

(** Modelled from the spec: [_create] of the base class is one bridge
    call whose callback delivers the handle of the new native object,
    which is then set on [this]. The object is returned in place of the
    in-place update. *)
Definition _create (this : IssuerCredential) (createFn : nat -> M Z)
    : M (async IssuerCredential) :=
  let* p :=
    createFFICallbackPromise
      (fun resolve reject cb =>
         let* rc := native (createFn cb) in
         if truthy rc then reject (Code rc) else ret tt)
      (fun resolve reject args =>
         if truthy (err args) then reject (Code (err args))
         else resolve (as_number (arg args))) in
  ret (await_then p (fun handleRes => _setHandle handleRes this)).

(** Modelled from the spec: [_deserialize] of the base class builds the
    wrapper from the [source_id] of the data and the given parameters,
    hands the serialized object to [_deserializeFn] in one bridge call,
    and sets the handle the callback delivers. *)
Definition _deserialize (credentialData : ISerializedData)
    (params : IIssuerCredentialParams) : M (async IssuerCredential) :=
  let obj := new_IssuerCredential (source_id (data credentialData)) params in
  let* p :=
    createFFICallbackPromise
      (fun resolve reject cb =>
         let* rc :=
           native (rustAPI
                     (vcx_issuer_credential_deserialize 0 credentialData) cb) in
         if truthy rc then reject (Code rc) else ret tt)
      (fun resolve reject args =>
         if truthy (err args) then reject (Code (err args))
         else resolve (as_number (arg args))) in
  ret (await_then p (fun handleRes => _setHandle handleRes obj)).

Definition create (d : IIssuerCredentialCreateData)
    : M (async IssuerCredential) :=
  try_catch
    (let attrsVCX := cd_attr d in
     let credential :=
       new_IssuerCredential (cd_sourceId d)
         {| p_credDefHandle := cd_credDefHandle d;
            p_credentialName := cd_credentialName d;
            p_attr := attrsVCX;
            p_price := cd_price d |} in
     match
       match attrsVCX with
       | Some a =>
           match JSON_stringify a with
           | Normal s => Normal (Some s)
           | Throw e => Throw e
           end
       | None => Normal None
       end
     with
     | Throw e => ret (Return (throw e))
     | Normal attrsStringified =>
         let commandHandle := 0 in
         _create credential (fun cb =>
           rustAPI
             (vcx_issuer_create_credential
                commandHandle
                (cd_sourceId d)
                (cd_credDefHandle d)
                (cd_issuerDid d)
                attrsStringified
                (cd_credentialName d)
                (cd_price d))
             cb)
     end)
    (fun err => throw (VCXInternalError err)).

Definition deserialize (credentialData : ISerializedData)
    : M (async IssuerCredential) :=
  try_catch
    (match
       if String.eqb (version credentialData) "2.0"
       then Normal {| p_attr := Some [];
                      p_credDefHandle := -1;
                      p_credentialName := "";
                      p_price := "0" |}
       else Throw (JsError
                     ("Unsupported version provided in serialized credential data: "
                      +:+ JSON_stringify_string (version credentialData)))
     with
     | Throw e => ret (Return (throw e))
     | Normal params => _deserialize credentialData params
     end)
    (fun err => throw (VCXInternalError err)).

Definition sendOffer (this : IssuerCredential) (connection : Connection)
    : M (async unit) :=
  try_catch
    (let* p :=
       createFFICallbackPromise
         (fun resolve reject cb =>
            let* rc :=
              native (rustAPI
                        (vcx_issuer_send_credential_offer
                           0 (handle this) (connection_handle connection))
                        cb) in
            if truthy rc then reject (Code rc) else ret tt)
         (fun resolve reject args =>
            if truthy (err args) then reject (Code (err args))
            else resolve tt) in
     ret (await_then p (fun r => r)))
    (fun err => throw (VCXInternalError err)).

Definition getCredentialOfferMsg (this : IssuerCredential)
    : M (async (option string)) :=
  try_catch
    (let* p :=
       createFFICallbackPromise
         (fun resolve reject cb =>
            let* rc :=
              native (rustAPI
                        (vcx_issuer_get_credential_offer_msg 0 (handle this))
                        cb) in
            if truthy rc then reject (Code rc) else ret tt)
         (fun resolve reject args =>
            let message := as_string (arg args) in
            if truthy (err args) then reject (Code (err args))
            else if falsy message
            then reject (Reason ("Credential " +:+ sourceId this
                                 +:+ " returned empty string"))
            else resolve message) in
     ret (await_then p (fun r => r)))
    (fun err => throw (VCXInternalError err)).

Definition getThreadId (this : IssuerCredential)
    : M (async (option string)) :=
  try_catch
    (let* p :=
       createFFICallbackPromise
         (fun resolve reject cb =>
            let* rc :=
              native (rustAPI
                        (vcx_issuer_credential_get_thread_id 0 (handle this))
                        cb) in
            if truthy rc then reject (Code rc) else ret tt)
         (fun resolve reject args =>
            let threadId := as_string (arg args) in
            if truthy (err args) then reject (Code (err args))
            else resolve threadId) in
     ret (await_then p (fun threadId => threadId)))
    (fun err => throw (VCXInternalError err)).

Definition sendCredential (this : IssuerCredential) (connection : Connection)
    : M (async unit) :=
  try_catch
    (let* p :=
       createFFICallbackPromise
         (fun resolve reject cb =>
            let* rc :=
              native (rustAPI
                        (vcx_issuer_send_credential
                           0 (handle this) (connection_handle connection))
                        cb) in
            if truthy rc then reject (Code rc) else ret tt)
         (fun resolve reject args =>
            if truthy (err args) then reject (Code (err args))
            else resolve tt) in
     ret (await_then p (fun r => r)))
    (fun err => throw (VCXInternalError err)).

Definition getCredentialMsg (this : IssuerCredential) (myPwDid : string)
    : M (async (option string)) :=
  try_catch
    (let* p :=
       createFFICallbackPromise
         (fun resolve reject cb =>
            let* rc :=
              native (rustAPI
                        (vcx_issuer_get_credential_msg
                           0 (handle this) myPwDid)
                        cb) in
            if truthy rc then reject (Code rc) else ret tt)
         (fun resolve reject args =>
            let message := as_string (arg args) in
            if truthy (err args) then reject (Code (err args))
            else if falsy message
            then reject (Reason ("Credential " +:+ sourceId this
                                 +:+ " returned empty string"))
            else resolve message) in
     ret (await_then p (fun r => r)))
    (fun err => throw (VCXInternalError err)).

Definition revokeCredential (this : IssuerCredential) : M (async unit) :=
  try_catch
    (let* p :=
       createFFICallbackPromise
         (fun resolve reject cb =>
            let* rc :=
              native (rustAPI
                        (vcx_issuer_revoke_credential 0 (handle this)) cb) in
            if truthy rc then reject (Code rc) else ret tt)
         (fun resolve reject args =>
            if truthy (err args) then reject (Code (err args))
            else resolve tt) in
     ret (await_then p (fun r => r)))
    (fun err => throw (VCXInternalError err)).

Definition revokeCredentialLocal (this : IssuerCredential)
    : M (async unit) :=
  try_catch
    (let* p :=
       createFFICallbackPromise
         (fun resolve reject cb =>
            let* rc :=
              native (rustAPI
                        (vcx_issuer_revoke_credential_local 0 (handle this))
                        cb) in
            if truthy rc then reject (Code rc) else ret tt)
         (fun resolve reject args =>
            if truthy (err args) then reject (Code (err args))
            else resolve tt) in
     ret (await_then p (fun r => r)))
    (fun err => throw (VCXInternalError err)).

Definition getRevRegId (this : IssuerCredential)
    : M (async (option string)) :=
  try_catch
    (let* p :=
       createFFICallbackPromise
         (fun resolve reject cb =>
            let* rc :=
              native (rustAPI
                        (vcx_issuer_credential_get_rev_reg_id 0 (handle this))
                        cb) in
            if truthy rc then reject (Code rc) else ret tt)
         (fun resolve reject args =>
            let _revRegId := as_string (arg args) in
            if truthy (err args) then reject (Code (err args))
            else resolve _revRegId) in
     ret (await_then p (fun revRegId => revRegId)))
    (fun err => throw (VCXInternalError err)).

(** ** Operations inherited from the base class *)

(** Modelled from the spec: [serialize] of the base class is one bridge
    call through [_serializeFn]; the callback delivers the text of the
    serialized object, which is decoded, and a success without such a
    text is a decode failure. *)
Definition serialize (this : IssuerCredential) : M (async ISerializedData) :=
  try_catch
    (let* p :=
       createFFICallbackPromise
         (fun resolve reject cb =>
            let* rc :=
              native (rustAPI
                        (vcx_issuer_credential_serialize 0 (handle this))
                        cb) in
            if truthy rc then reject (Code rc) else ret tt)
         (fun resolve reject args =>
            if truthy (err args) then reject (Code (err args))
            else match arg args with
                 | Serialized d => resolve d
                 | _ => reject (Reason "ProtocolDecodeError")
                 end) in
     ret (await_then p (fun d => d)))
    (fun err => throw (VCXInternalError err)).

(** Modelled from the spec: [getState] of the base class is a read of
    the engine's state through [_getStFn], one bridge call whose callback
    delivers the numeric state. *)
Definition getState (this : IssuerCredential) : M (async Z) :=
  try_catch
    (let* p :=
       createFFICallbackPromise
         (fun resolve reject cb =>
            let* rc :=
              native (rustAPI
                        (vcx_issuer_credential_get_state 0 (handle this))
                        cb) in
            if truthy rc then reject (Code rc) else ret tt)
         (fun resolve reject args =>
            if truthy (err args) then reject (Code (err args))
            else resolve (as_number (arg args))) in
     ret (await_then p (fun st => st)))
    (fun err => throw (VCXInternalError err)).

(** Modelled from the spec: [updateStateV2] of the base class asks the
    engine, through [_updateStFnV2], to reconcile the messages pending on
    the connection, and returns the state the callback delivers. *)
Definition updateStateV2 (this : IssuerCredential) (connection : Connection)
    : M (async Z) :=
  try_catch
    (let* p :=
       createFFICallbackPromise
         (fun resolve reject cb =>
            let* rc :=
              native (rustAPI
                        (vcx_v2_issuer_credential_update_state
                           0 (handle this) (connection_handle connection))
                        cb) in
            if truthy rc then reject (Code rc) else ret tt)
         (fun resolve reject args =>
            if truthy (err args) then reject (Code (err args))
            else resolve (as_number (arg args))) in
     ret (await_then p (fun st => st)))
    (fun err => throw (VCXInternalError err)).

(** ** The public operations written in the class *)

Inductive operation : Type :=
| op_create (d : IIssuerCredentialCreateData)
| op_deserialize (credentialData : ISerializedData)
| op_sendOffer (this : IssuerCredential) (connection : Connection)
| op_getCredentialOfferMsg (this : IssuerCredential)
| op_getThreadId (this : IssuerCredential)
| op_sendCredential (this : IssuerCredential) (connection : Connection)
| op_getCredentialMsg (this : IssuerCredential) (myPwDid : string)
| op_revokeCredential (this : IssuerCredential)
| op_revokeCredentialLocal (this : IssuerCredential)
| op_getRevRegId (this : IssuerCredential).

(** What a promise of the class resolves with. *)
Inductive value : Type :=
| VVoid
| VString (s : option string)
| VCredential (c : IssuerCredential).

Definition async_map {A B : Type} (f : A -> B) (a : async A) : async B :=
  match a with
  | Return s =>
      Return (match s with
              | Pending => Pending
              | Resolved x => Resolved (f x)
              | Rejected e => Rejected e
              end)
  | Await p k =>
      Await p (fun r =>
        match k r with
        | Pending => Pending
        | Resolved x => Resolved (f x)
        | Rejected e => Rejected e
        end)
  end.

Definition as_value {A : Type} (f : A -> value) (op : M (async A))
    : M (async value) :=
  let* a := op in ret (async_map f a).

Definition perform (o : operation) : M (async value) :=
  match o with
  | op_create d => as_value VCredential (create d)
  | op_deserialize credentialData =>
      as_value VCredential (deserialize credentialData)
  | op_sendOffer this connection =>
      as_value (fun _ => VVoid) (sendOffer this connection)
  | op_getCredentialOfferMsg this =>
      as_value VString (getCredentialOfferMsg this)
  | op_getThreadId this => as_value VString (getThreadId this)
  | op_sendCredential this connection =>
      as_value (fun _ => VVoid) (sendCredential this connection)
  | op_getCredentialMsg this myPwDid =>
      as_value VString (getCredentialMsg this myPwDid)
  | op_revokeCredential this =>
      as_value (fun _ => VVoid) (revokeCredential this)
  | op_revokeCredentialLocal this =>
      as_value (fun _ => VVoid) (revokeCredentialLocal this)
  | op_getRevRegId this => as_value VString (getRevRegId this)
  end.

(** The native call an operation makes, when it gets that far. *)
Definition call_of (o : operation) : option native_call :=
  match o with
  | op_create d =>
      match cd_attr d with
      | Some a =>
          match JSON_stringify a with
          | Normal s =>
              Some (vcx_issuer_create_credential
                      0 (cd_sourceId d) (cd_credDefHandle d) (cd_issuerDid d)
                      (Some s) (cd_credentialName d) (cd_price d))
          | Throw _ => None
          end
      | None =>
          Some (vcx_issuer_create_credential
                  0 (cd_sourceId d) (cd_credDefHandle d) (cd_issuerDid d)
                  None (cd_credentialName d) (cd_price d))
      end
  | op_deserialize credentialData =>
      if String.eqb (version credentialData) "2.0"
      then Some (vcx_issuer_credential_deserialize 0 credentialData)
      else None
  | op_sendOffer this connection =>
      Some (vcx_issuer_send_credential_offer
              0 (handle this) (connection_handle connection))
  | op_getCredentialOfferMsg this =>
      Some (vcx_issuer_get_credential_offer_msg 0 (handle this))
  | op_getThreadId this =>
      Some (vcx_issuer_credential_get_thread_id 0 (handle this))
  | op_sendCredential this connection =>
      Some (vcx_issuer_send_credential
              0 (handle this) (connection_handle connection))
  | op_getCredentialMsg this myPwDid =>
      Some (vcx_issuer_get_credential_msg 0 (handle this) myPwDid)
  | op_revokeCredential this =>
      Some (vcx_issuer_revoke_credential 0 (handle this))
  | op_revokeCredentialLocal this =>
      Some (vcx_issuer_revoke_credential_local 0 (handle this))
  | op_getRevRegId this =>
      Some (vcx_issuer_credential_get_rev_reg_id 0 (handle this))
  end.

(** ** Reading the engine's answer *)

Definition response_to (c : native_call) (w : world) : native_response :=
  fst (invoke E c (engine w)).

(** The world once the call [c] has been made under a fresh callback
    reference. *)
Definition after_call (c : native_call) (w : world) : world :=
  {| engine := snd (invoke E c (engine w));
     trace := trace w ++ [c];
     inflight := <[next_slot w := (c, reply (response_to c w))]> (inflight w);
     next_slot := S (next_slot w) |}.

(** The calls whose callback reference the engine still holds. *)
Definition outstanding (w : world) : list native_call :=
  (fun e => fst (snd e)) <$> map_to_list (inflight w).

Definition initial (e : estate E) : world :=
  {| engine := e; trace := []; inflight := ∅; next_slot := 0%nat |}.

End Wrapper.

Arguments engine {E} w.
Arguments trace {E} w.
Arguments inflight {E} w.
Arguments next_slot {E} w.
Arguments run {E T} op w.
Arguments settled_now {E T} a.
Arguments Return {E T} s.
Arguments Await {E T X} p k.
Arguments create {E} JSON_stringify d w.
Arguments deserialize {E} credentialData w.
Arguments sendOffer {E} this connection w.
Arguments getCredentialOfferMsg {E} this w.
Arguments getThreadId {E} this w.
Arguments sendCredential {E} this connection w.
Arguments getCredentialMsg {E} this myPwDid w.
Arguments revokeCredential {E} this w.
Arguments revokeCredentialLocal {E} this w.
Arguments getRevRegId {E} this w.
Arguments serialize {E} this w.
Arguments getState {E} this w.
Arguments updateStateV2 {E} this connection w.
Arguments perform {E} JSON_stringify o w.
Arguments as_value {E A} f op w.
Arguments response_to {E} c w.
Arguments after_call {E} c w.
Arguments outstanding {E} w.

(** ** The issuance protocol *)

Inductive IssuanceState : Type :=
| StateNone
| Initialized
| OfferSent
| RequestReceived
| Accepted.

Inductive protocol_message : Type :=
| CredentialRequest
| ProblemReport
| Ack.

Inductive trigger : Type :=
| trg_create
| trg_sendOffer
| trg_received (m : protocol_message)
| trg_sendCredential.

(** The transitions listed under [# Transitions] in the header of the
    class file; every other pair has no transition. *)
Definition transition (from : IssuanceState) (t : trigger)
    : option IssuanceState :=
  match from, t with
  | StateNone, trg_create => Some Initialized
  | Initialized, trg_sendOffer => Some OfferSent
  | OfferSent, trg_received CredentialRequest => Some RequestReceived
  | OfferSent, trg_received ProblemReport => Some StateNone
  | RequestReceived, trg_sendCredential => Some Accepted
  | Accepted, trg_received Ack => Some Accepted
  | _, _ => None
  end.

(** ** A model of the engine *)

(** Modelled from the spec: a native object of the engine, which is not
    under the wrapper's sources: the source id it was created with and its
    issuance state. *)
Record issuer_object : Type := {
  o_source_id : string;
  o_state : IssuanceState
}.

(** Modelled from the spec: the engine's table of native objects by
    handle, the next handle it hands out, and the protocol messages
    pending on each connection. *)
Record libvcx_state : Type := {
  objects : gmap Z issuer_object;
  next_handle : Z;
  inbox : gmap Z (list protocol_message)
}.

(** Modelled from the spec: what the spec leaves open about the engine,
    as parameters: the numeric code of each state, the statuses of its
    refusals, whether it refuses with the synchronous status or through
    the callback, and its answers to the calls outside the state table. *)
Record libvcx_config : Type := {
  state_code : IssuanceState -> Z;
  invalid_handle : Z;
  illegal_transition : Z;
  invalid_data : Z;
  refuses_at_once : bool;
  other_calls : native_call -> native_response
}.

(** Modelled from the spec: the engine-defined [issuer_sm] of a
    serialized object captures the state; here, as the state's name. *)
Definition state_text (s : IssuanceState) : string :=
  match s with
  | StateNone => "None"
  | Initialized => "Initialized"
  | OfferSent => "OfferSent"
  | RequestReceived => "RequestReceived"
  | Accepted => "Accepted"
  end.

Definition parse_state (t : string) : option IssuanceState :=
  if String.eqb t "None" then Some StateNone
  else if String.eqb t "Initialized" then Some Initialized
  else if String.eqb t "OfferSent" then Some OfferSent
  else if String.eqb t "RequestReceived" then Some RequestReceived
  else if String.eqb t "Accepted" then Some Accepted
  else None.

(** Modelled from the spec: an accepted call returns status 0 and calls
    back once with status 0 and the payload; a refused one reports the
    code through the synchronous status or through the callback. *)
Definition accepted (ch : Z) (p : payload) : native_response :=
  {| rc := 0;
     reply := Some {| xcommand_handle := ch; err := 0; arg := p |} |}.

Definition refused (cfg : libvcx_config) (ch code : Z) : native_response :=
  if refuses_at_once cfg
  then {| rc := code; reply := None |}
  else {| rc := 0;
          reply := Some {| xcommand_handle := ch; err := code;
                           arg := NoValue |} |}.

Definition find_object (h : option Z) (st : libvcx_state)
    : option (Z * issuer_object) :=
  match h with
  | None => None
  | Some h =>
      match objects st !! h with
      | None => None
      | Some o => Some (h, o)
      end
  end.

Definition put_object (h : Z) (o : issuer_object) (st : libvcx_state)
    : libvcx_state :=
  {| objects := <[h := o]> (objects st);
     next_handle := next_handle st;
     inbox := inbox st |}.

Definition allocate (o : issuer_object) (st : libvcx_state)
    : Z * libvcx_state :=
  (next_handle st,
   {| objects := <[next_handle st := o]> (objects st);
      next_handle := next_handle st + 1;
      inbox := inbox st |}).

(** Modelled from the spec: a local action is admitted where the table
    has a transition, and refused otherwise. *)
Definition act (cfg : libvcx_config) (ch : Z) (h : option Z) (t : trigger)
    (st : libvcx_state) : native_response * libvcx_state :=
  match find_object h st with
  | None => (refused cfg ch (invalid_handle cfg), st)
  | Some (h, o) =>
      match transition (o_state o) t with
      | Some s' =>
          (accepted ch NoValue,
           put_object h {| o_source_id := o_source_id o; o_state := s' |} st)
      | None => (refused cfg ch (illegal_transition cfg), st)
      end
  end.

(** Modelled from the spec: a received message moves the state where
    the table says so. *)
Definition receive (s : IssuanceState) (m : protocol_message)
    : IssuanceState :=
  match transition s (trg_received m) with
  | Some s' => s'
  | None => s
  end.

(** Modelled from the spec: the engine behind the function table. It
    keeps one state per native object, applies the transition table to
    local actions and to the messages pending on a connection, refuses an
    action the table does not list, and serializes an object as its
    state and source id under version 2.0. *)
Definition libvcx_invoke (cfg : libvcx_config) (c : native_call)
    (st : libvcx_state) : native_response * libvcx_state :=
  match c with
  | vcx_issuer_create_credential ch sid _ _ _ _ _ =>
      match transition StateNone trg_create with
      | Some s =>
          let (h, st') :=
            allocate {| o_source_id := sid; o_state := s |} st in
          (accepted ch (Num h), st')
      | None => (refused cfg ch (illegal_transition cfg), st)
      end
  | vcx_issuer_send_credential_offer ch h _ => act cfg ch h trg_sendOffer st
  | vcx_issuer_send_credential ch h _ => act cfg ch h trg_sendCredential st
  | vcx_v2_issuer_credential_update_state ch h conn =>
      match find_object h st with
      | None => (refused cfg ch (invalid_handle cfg), st)
      | Some (h, o) =>
          let s' := fold_left receive (default [] (inbox st !! conn))
                      (o_state o) in
          (accepted ch (Num (state_code cfg s')),
           {| objects :=
                <[h := {| o_source_id := o_source_id o; o_state := s' |}]>
                  (objects st);
              next_handle := next_handle st;
              inbox := delete conn (inbox st) |})
      end
  | vcx_issuer_credential_get_state ch h =>
      match find_object h st with
      | None => (refused cfg ch (invalid_handle cfg), st)
      | Some (_, o) => (accepted ch (Num (state_code cfg (o_state o))), st)
      end
  | vcx_issuer_credential_serialize ch h =>
      match find_object h st with
      | None => (refused cfg ch (invalid_handle cfg), st)
      | Some (_, o) =>
          (accepted ch
             (Serialized
                {| version := "2.0";
                   data := {| issuer_sm := state_text (o_state o);
                              source_id := o_source_id o |} |}),
           st)
      end
  | vcx_issuer_credential_deserialize ch d =>
      match parse_state (issuer_sm (data d)) with
      | None => (refused cfg ch (invalid_data cfg), st)
      | Some s =>
          let (h, st') :=
            allocate {| o_source_id := source_id (data d); o_state := s |}
              st in
          (accepted ch (Num h), st')
      end
  | _ => (other_calls cfg c, st)
  end.

Definition libvcx (cfg : libvcx_config) : Engine :=
  {| estate := libvcx_state; invoke := libvcx_invoke cfg |}.

(** The wrapper's object holds the handle of the live native object [o]. *)
Definition stands_for (cfg : libvcx_config) (w : world (libvcx cfg))
    (this : IssuerCredential) (o : issuer_object) : Prop :=
  exists h : Z,
    handle this = Some h /\
    objects (engine w) !! h = Some o.

(** ... and that object carries the wrapper's source id. *)
Definition bound (cfg : libvcx_config) (w : world (libvcx cfg))
    (this : IssuerCredential) (o : issuer_object) : Prop :=
  stands_for cfg w this o /\ o_source_id o = sourceId this.

(** The state an object is in, as the wrapper reads it. *)
Definition reads_state (cfg : libvcx_config) (w : world (libvcx cfg))
    (this : IssuerCredential) (s : IssuanceState) : Prop :=
  fst (run (getState this) w) = Resolved (state_code cfg s).

(** Modelled from the spec: a protocol message reaches the engine on a
    connection and waits there for the next refresh. *)
Definition arrives (cfg : libvcx_config) (conn : Z) (m : protocol_message)
    (w : world (libvcx cfg)) : world (libvcx cfg) :=
  Build_world (libvcx cfg)
    {| objects := objects (engine w);
       next_handle := next_handle (engine w);
       inbox :=
         <[conn := (default [] (inbox (engine w) !! conn) ++ [m])%list]>
           (inbox (engine w)) |}
    (trace w) (inflight w) (next_slot w).

(** ** A scripted engine *)

(** An engine that answers the calls it receives with the responses of
    a script, in order, and accepts silently once the script is used up. *)
Definition scripted : Engine :=
  {| estate := list native_response;
     invoke := fun _ script =>
       match script with
       | r :: rest => (r, rest)
       | [] => ({| rc := 0; reply := None |}, [])
       end |}.

(** ** Vocabulary of the statements *)

Arguments slot {E T} p.
Arguments cell {E T} p.
Arguments on_callback {E T} p.

(** The promise of a bridge call right after the executor has run: it is
    rejected with the status when the status is nonzero. *)
Definition checked {X : Type} (r : native_response) : settlement X :=
  if truthy (rc r) then Rejected (Code (rc r)) else Pending.

(** The same promise once the engine's callback, if any, has run. *)
Definition answered {X : Type} (outcome : callback_args -> settlement X)
    (r : native_response) : settlement X :=
  match reply r with
  | Some args => settle (outcome args) (checked r)
  | None => checked r
  end.

(** What the caller of an operation sees of the awaited promise: the
    value through [f], or the failure inside a [VCXInternalError]. *)
Definition surfaced {X T : Type} (f : X -> T) (s : settlement X)
    : settlement T :=
  match s with
  | Pending => Pending
  | Resolved x => Resolved (f x)
  | Rejected e => Rejected (VCXInternalError e)
  end.

(** The callback bodies of the class. *)
Definition plain_outcome {X : Type} (decode : payload -> X)
    (args : callback_args) : settlement X :=
  if truthy (err args) then Rejected (Code (err args))
  else Resolved (decode (arg args)).

Definition message_outcome (sid : string) (args : callback_args)
    : settlement (option string) :=
  if truthy (err args) then Rejected (Code (err args))
  else if falsy (as_string (arg args))
  then Rejected (Reason ("Credential " +:+ sid +:+ " returned empty string"))
  else Resolved (as_string (arg args)).

Definition serialized_outcome (args : callback_args)
    : settlement ISerializedData :=
  if truthy (err args) then Rejected (Code (err args))
  else match arg args with
       | Serialized d => Resolved d
       | _ => Rejected (Reason "ProtocolDecodeError")
       end.

(** [op] is one bridge call of [c]: it suspends on a promise registered
    under a fresh callback reference, whose callback settles it with
    [outcome], and surfaces the settlement through [f]. *)
Definition bridges {E : Engine} {T X : Type} (op : M E (async E T))
    (c : native_call) (outcome : callback_args -> settlement X)
    (f : X -> T) : Prop :=
  forall w : world E,
    exists (p : promise E X) (k : settlement X -> settlement T),
      op w = (Await p k, after_call c w) /\
      slot p = next_slot w /\
      cell p = checked (response_to c w) /\
      (forall args s,
          on_callback p args s = (tt, (fst s, settle (outcome args) (snd s)))) /\
      (forall s, k s = surfaced f s).

(** The text [create] passes for the attributes: absent attributes are
    passed as they are, present ones encoded. *)
Definition stringified
    (JSON_stringify : IIssuerCredentialVCXAttributes -> completion string)
    (attr : option IIssuerCredentialVCXAttributes)
    : completion (option string) :=
  match attr with
  | Some a =>
      match JSON_stringify a with
      | Normal s => Normal (Some s)
      | Throw e => Throw e
      end
  | None => Normal None
  end.

(** A callback body that never looks at the command handle it is invoked
    with. *)
Definition ignores_command_handle {X : Type}
    (outcome : callback_args -> settlement X) : Prop :=
  forall (args : callback_args) (n : Z),
    outcome {| xcommand_handle := n; err := err args; arg := arg args |}
    = outcome args.

(** Every callback reference in use is older than the next one to be
    handed out. *)
Definition slots_below {E : Engine} (w : world E) : Prop :=
  forall k : nat, is_Some (inflight w !! k) -> (k < next_slot w)%nat.

(** Command handles of the outstanding calls are pairwise distinct. *)
Definition command_ids_unique {E : Engine} (w : world E) : Prop :=
  NoDup (command_handle_of <$> outstanding w).

(** The payment manager, when there is one, holds the object's handle. *)
Definition payment_manager_follows (this : IssuerCredential) : Prop :=
  pm_handle <$> paymentManager this = handle this.





(** ** Sample data *)

Definition sample_params : IIssuerCredentialParams :=
  {| p_credDefHandle := 7;
     p_credentialName := "Drivers Licence";
     p_attr := Some [("state", "UT")];
     p_price := "0" |}.

Definition sample_create : IIssuerCredentialCreateData :=
  {| cd_sourceId := "12";
     cd_credDefHandle := 7;
     cd_attr := Some [("state", "UT")];
     cd_credentialName := "Drivers Licence";
     cd_price := "0";
     cd_issuerDid := "did" |}.

Definition sample_credential : IssuerCredential :=
  _setHandle 5 (new_IssuerCredential "12" sample_params).

Definition other_credential : IssuerCredential :=
  _setHandle 6 (new_IssuerCredential "13" sample_params).

Definition sample_connection : Connection := {| connection_handle := 9 |}.

Definition serialized_v1 : ISerializedData :=
  {| version := "1.0";
     data := {| issuer_sm := "Accepted"; source_id := "12" |} |}.

Definition serialized_v2 : ISerializedData :=
  {| version := "2.0";
     data := {| issuer_sm := "Accepted"; source_id := "12" |} |}.

(** Two stand-ins for the encoder, which is a parameter throughout: one
    that never throws, whose text is a placeholder and is not looked at,
    and one that throws on every mapping. *)
Definition stringify_ok (a : IIssuerCredentialVCXAttributes)
    : completion string :=
  Normal "{}".

Definition stringify_fails (a : IIssuerCredentialVCXAttributes)
    : completion string :=
  Throw (JsError "Do not know how to serialize a BigInt").

Definition sample_config : libvcx_config :=
  {| state_code := fun s =>
       match s with
       | StateNone => 0
       | Initialized => 1
       | OfferSent => 2
       | RequestReceived => 3
       | Accepted => 4
       end;
     invalid_handle := 1015;
     illegal_transition := 1005;
     invalid_data := 1016;
     refuses_at_once := false;
     other_calls := fun c => accepted (command_handle_of c) NoValue |}.

(** A world of the engine model with one native object, of handle 5 and
    source id 12, in state [s], and [pending] waiting on connection 9. *)
Definition world_in (s : IssuanceState) (pending : list protocol_message)
    : world (libvcx sample_config) :=
  initial (libvcx sample_config)
    {| objects := {[ 5 := {| o_source_id := "12"; o_state := s |} ]};
       next_handle := 6;
       inbox := {[ 9 := pending ]} |}.

(** The scenario of the spec, run on the engine model from an empty
    engine: the states read after each step, and the source id of the
    object read back from the serialized form. *)
Definition end_to_end : option (list (settlement Z) * string) :=
  let w0 :=
    initial (libvcx sample_config)
      {| objects := ∅; next_handle := 1; inbox := ∅ |} in
  match run (create stringify_ok sample_create) w0 with
  | (Resolved cred, w1) =>
      let (s1, w2) := run (getState cred) w1 in
      let (_, w3) := run (sendOffer cred sample_connection) w2 in
      let (s2, w4) := run (getState cred) w3 in
      let (s3, w5) :=
        run (updateStateV2 cred sample_connection)
          (arrives sample_config 9 CredentialRequest w4) in
      let (_, w6) := run (sendCredential cred sample_connection) w5 in
      let (s4, w7) := run (getState cred) w6 in
      match run (serialize cred) w7 with
      | (Resolved d, w8) =>
          match run (deserialize d) w8 with
          | (Resolved cred', w9) =>
              let (s5, _) := run (getState cred') w9 in
              Some ([s1; s2; s3; s4; s5], sourceId cred')
          | _ => None
          end
      | _ => None
      end
  | _ => None
  end.

(** ** More of the class *)

(** The getters [credDefHandle], [attr], [credentialName] and [price]. *)
Definition credDefHandle (this : IssuerCredential) : Z :=
  _credDefHandle this.

Definition attr (this : IssuerCredential)
    : option IIssuerCredentialVCXAttributes :=
  _attr this.

Definition credentialName (this : IssuerCredential) : string :=
  _credentialName this.

Definition price (this : IssuerCredential) : string := _price this.

(** The operations of an existing object, whose executor and callback
    are both written in the class. *)
Definition instance_operation (o : operation) : bool :=
  match o with
  | op_create _ | op_deserialize _ => false
  | _ => true
  end.

(** The operations whose promise carries no value. *)
Definition void_operation (o : operation) : bool :=
  match o with
  | op_sendOffer _ _ | op_sendCredential _ _
  | op_revokeCredential _ | op_revokeCredentialLocal _ => true
  | _ => false
  end.

(** The native calls of one operation: one, or none when it fails
    before the call. *)
Definition calls_of
    (JSON_stringify : IIssuerCredentialVCXAttributes -> completion string)
    (o : operation) : list native_call :=
  match call_of JSON_stringify o with
  | Some c => [c]
  | None => []
  end.

(** Operations awaited one after the other. *)
Definition run_all {E : Engine}
    (JSON_stringify : IIssuerCredentialVCXAttributes -> completion string)
    (ops : list operation) (w : world E) : world E :=
  fold_left (fun w o => snd (run (perform JSON_stringify o) w)) ops w.

(** Following the transition table along a list of triggers; [None] once
    a trigger has no transition. *)
Definition follow (s : IssuanceState) (ts : list trigger)
    : option IssuanceState :=
  fold_left
    (fun acc t =>
       match acc with
       | Some s => transition s t
       | None => None
       end)
    ts (Some s).

(** A callback invocation reporting failure [e] beside payload [p]. *)
Definition failed (e : Z) (p : payload) : native_response :=
  {| rc := 0;
     reply := Some {| xcommand_handle := 0; err := e; arg := p |} |}.

Definition create_without_attr : IIssuerCredentialCreateData :=
  {| cd_sourceId := "12";
     cd_credDefHandle := 7;
     cd_attr := None;
     cd_credentialName := "Drivers Licence";
     cd_price := "0";
     cd_issuerDid := "did" |}.

Definition serialized_v3 : ISerializedData :=
  {| version := "3.0";
     data := {| issuer_sm := "Accepted"; source_id := "12" |} |}.

(** ** How an operation ends, read off the engine's answer *)







(** * Facts *)

(** ** A quoted string reads back as itself *)

Lemma append_assoc_string (a b c : string) :
  (a +:+ b) +:+ c = a +:+ (b +:+ c).
Proof.
  induction a as [|x a IH]; [reflexivity|].
  change (String x ((a +:+ b) +:+ c) = String x (a +:+ (b +:+ c))).
  rewrite IH. reflexivity.
Qed.

Lemma json_unescape_escape (c : ascii) (rest : string) :
  json_unescape_all (json_escape c +:+ rest) =
  option_map (String c) (json_unescape_all rest).
Proof. destruct c as [[] [] [] [] [] [] [] []]; reflexivity. Qed.

Lemma json_unescape_escape_all (s : string) :
  json_unescape_all (json_escape_all s +:+ String dquote "") = Some s.
Proof.
  induction s as [|c s IH].
  - reflexivity.
  - change (json_escape_all (String c s))
      with (json_escape c +:+ json_escape_all s).
    rewrite append_assoc_string, json_unescape_escape, IH. reflexivity.
Qed.

Lemma JSON_parse_stringify (s : string) :
  JSON_parse_string (JSON_stringify_string s) = Some s.
Proof. apply json_unescape_escape_all. Qed.

Lemma JSON_stringify_string_inj (s t : string) :
  JSON_stringify_string s = JSON_stringify_string t -> s = t.
Proof.
  intros H. apply (f_equal JSON_parse_string) in H.
  rewrite !JSON_parse_stringify in H. congruence.
Qed.

Section Bridge.

Variable E : Engine.

Lemma settle_pending {X : Type} (s : settlement X) : settle s Pending = s.
Proof. reflexivity. Qed.

Lemma settle_settled {X : Type} (new cur : settlement X) :
  is_settled cur = true -> settle new cur = cur.
Proof. destruct cur; simpl; intros H; congruence. Qed.

Lemma truthy_spec (n : Z) : truthy n = true <-> n <> 0.
Proof.
  unfold truthy. destruct (Z.eqb_spec n 0); simpl; split; intros; congruence.
Qed.

Lemma checked_zero {X : Type} (r : native_response) :
  rc r = 0 -> @checked X r = Pending.
Proof. unfold checked. intros ->. reflexivity. Qed.

Lemma checked_nonzero {X : Type} (r : native_response) :
  rc r <> 0 -> @checked X r = Rejected (Code (rc r)).
Proof.
  unfold checked. intros H. apply truthy_spec in H. rewrite H. reflexivity.
Qed.

(** A nonzero status settles the promise for good: the callback, should
    it run, changes nothing. *)
Lemma answered_nonzero {X : Type} (outcome : callback_args -> settlement X)
    (r : native_response) :
  rc r <> 0 -> answered outcome r = Rejected (Code (rc r)).
Proof.
  intros H. unfold answered. rewrite (checked_nonzero r H).
  destruct (reply r); reflexivity.
Qed.

Lemma answered_zero {X : Type} (outcome : callback_args -> settlement X)
    (r : native_response) (args : callback_args) :
  rc r = 0 -> reply r = Some args -> answered outcome r = outcome args.
Proof.
  intros H0 Hr. unfold answered. rewrite Hr, (checked_zero r H0).
  reflexivity.
Qed.


Section OneBridge.

Context {T X : Type} (op : M E (async E T)) (c : native_call)
        (outcome : callback_args -> settlement X) (f : X -> T).
Hypothesis Hop : bridges op c outcome f.

Lemma bridges_now (w : world E) :
  settled_now (fst (op w)) = surfaced f (checked (response_to c w)).
Proof.
  destruct (Hop w) as (p & k & Heq & _ & Hcell & _ & Hk).
  rewrite Heq. simpl. rewrite Hk, Hcell. reflexivity.
Qed.

Lemma bridges_begin (w : world E) : snd (op w) = after_call c w.
Proof.
  destruct (Hop w) as (p & k & Heq & _). rewrite Heq. reflexivity.
Qed.

Lemma bridges_run (w : world E) :
  fst (run op w) = surfaced f (answered outcome (response_to c w)).
Proof.
  destruct (Hop w) as (p & k & Heq & Hslot & Hcell & Hcb & Hk).
  unfold run, bind. rewrite Heq. unfold deliver, ret.
  rewrite Hslot. unfold after_call at 1. simpl.
  rewrite lookup_insert_eq. unfold answered.
  destruct (reply (response_to c w)) as [args|].
  - rewrite Hcb. simpl. rewrite Hk, Hcell. reflexivity.
  - simpl. rewrite Hk, Hcell. reflexivity.
Qed.

Lemma bridges_engine (w : world E) :
  engine (snd (run op w)) = snd (invoke E c (engine w)).
Proof.
  destruct (Hop w) as (p & k & Heq & Hslot & Hcell & Hcb & Hk).
  unfold run, bind. rewrite Heq. unfold deliver, ret.
  rewrite Hslot. unfold after_call at 1. simpl.
  rewrite lookup_insert_eq.
  destruct (reply (response_to c w)) as [args|].
  - rewrite Hcb. reflexivity.
  - simpl. destruct (is_settled (cell p)); reflexivity.
Qed.

Lemma bridges_trace (w : world E) :
  trace (snd (run op w)) = (trace w ++ [c])%list.
Proof.
  destruct (Hop w) as (p & k & Heq & Hslot & Hcell & Hcb & Hk).
  unfold run, bind. rewrite Heq. unfold deliver, ret.
  rewrite Hslot. unfold after_call at 1. simpl.
  rewrite lookup_insert_eq.
  destruct (reply (response_to c w)) as [args|].
  - rewrite Hcb. reflexivity.
  - simpl. destruct (is_settled (cell p)); reflexivity.
Qed.

(** The reference a call registers its callback under is in use by no
    other call. *)
Lemma slots_below_fresh (w : world E) :
  slots_below w -> inflight w !! next_slot w = None.
Proof.
  intros Hw. destruct (inflight w !! next_slot w) as [x|] eqn:Hl;
    [|reflexivity].
  assert (next_slot w < next_slot w)%nat as Hlt
    by (apply Hw; rewrite Hl; eexists; reflexivity).
  lia.
Qed.

Lemma bridges_slots_below (w : world E) :
  slots_below w -> slots_below (snd (op w)).
Proof.
  intros Hw k. rewrite bridges_begin. unfold after_call. simpl.
  destruct (decide (next_slot w = k)) as [<-|Hne].
  - intros _. lia.
  - rewrite lookup_insert_ne by exact Hne. intros Hk.
    specialize (Hw k Hk). lia.
Qed.

(** The callback reference lives as long as the call: it is dropped once
    the callback has run. *)
Lemma bridges_released (w : world E) (args : callback_args) :
  reply (response_to c w) = Some args ->
  inflight (snd (run op w)) !! next_slot w = None.
Proof.
  intros Hr.
  destruct (Hop w) as (p & k & Heq & Hslot & Hcell & Hcb & Hk).
  unfold run, bind. rewrite Heq. unfold deliver, ret.
  rewrite Hslot. unfold after_call at 1. simpl.
  rewrite lookup_insert_eq, Hr, Hcb. simpl.
  apply lookup_delete_eq.
Qed.

End OneBridge.

End Bridge.

(** ** Each operation is one bridge call *)

Section Operations.

Variable E : Engine.

Ltac bridge_unfold :=
  unfold try_catch, _create, _deserialize, createFFICallbackPromise,
    fresh_slot, native, rustAPI, bind, ret, await_then, throw, catch;
  simpl.

Ltac bridge_call w c :=
  unfold after_call, response_to, checked;
  destruct (invoke E c (engine w)) as [r e'] eqn:Hinvoke; simpl;
  destruct (truthy (rc r)) eqn:Hrc; simpl;
  (eexists _, _; split; [reflexivity|]; simpl;
   split; [reflexivity|]; split; [reflexivity|]; split;
   [ intros args s; simpl | intros s; destruct s; reflexivity ]).

Ltac bridge_solve w :=
  bridge_unfold;
  match goal with |- context [invoke E ?c _] => bridge_call w c end;
  unfold plain_outcome, message_outcome, serialized_outcome, reject, resolve;
  repeat match goal with
         | |- context [if ?b then _ else _] => destruct b
         | |- context [match arg ?a with _ => _ end] => destruct (arg a)
         end;
  reflexivity.

Lemma sendOffer_bridges (this : IssuerCredential) (connection : Connection) :
  bridges (E := E) (sendOffer this connection)
    (vcx_issuer_send_credential_offer
       0 (handle this) (connection_handle connection))
    (plain_outcome (fun _ => tt)) (fun r => r).
Proof.
  intros w. unfold sendOffer. bridge_unfold.
  bridge_solve w.
Qed.

Lemma getCredentialOfferMsg_bridges (this : IssuerCredential) :
  bridges (E := E) (getCredentialOfferMsg this)
    (vcx_issuer_get_credential_offer_msg 0 (handle this))
    (message_outcome (sourceId this)) (fun r => r).
Proof. intros w. unfold getCredentialOfferMsg. bridge_solve w. Qed.

Lemma getThreadId_bridges (this : IssuerCredential) :
  bridges (E := E) (getThreadId this)
    (vcx_issuer_credential_get_thread_id 0 (handle this))
    (plain_outcome as_string) (fun r => r).
Proof. intros w. unfold getThreadId. bridge_solve w. Qed.

Lemma sendCredential_bridges (this : IssuerCredential)
    (connection : Connection) :
  bridges (E := E) (sendCredential this connection)
    (vcx_issuer_send_credential
       0 (handle this) (connection_handle connection))
    (plain_outcome (fun _ => tt)) (fun r => r).
Proof. intros w. unfold sendCredential. bridge_solve w. Qed.

Lemma getCredentialMsg_bridges (this : IssuerCredential) (myPwDid : string) :
  bridges (E := E) (getCredentialMsg this myPwDid)
    (vcx_issuer_get_credential_msg 0 (handle this) myPwDid)
    (message_outcome (sourceId this)) (fun r => r).
Proof. intros w. unfold getCredentialMsg. bridge_solve w. Qed.

Lemma revokeCredential_bridges (this : IssuerCredential) :
  bridges (E := E) (revokeCredential this)
    (vcx_issuer_revoke_credential 0 (handle this))
    (plain_outcome (fun _ => tt)) (fun r => r).
Proof. intros w. unfold revokeCredential. bridge_solve w. Qed.

Lemma revokeCredentialLocal_bridges (this : IssuerCredential) :
  bridges (E := E) (revokeCredentialLocal this)
    (vcx_issuer_revoke_credential_local 0 (handle this))
    (plain_outcome (fun _ => tt)) (fun r => r).
Proof. intros w. unfold revokeCredentialLocal. bridge_solve w. Qed.

Lemma getRevRegId_bridges (this : IssuerCredential) :
  bridges (E := E) (getRevRegId this)
    (vcx_issuer_credential_get_rev_reg_id 0 (handle this))
    (plain_outcome as_string) (fun r => r).
Proof. intros w. unfold getRevRegId. bridge_solve w. Qed.

Lemma serialize_bridges (this : IssuerCredential) :
  bridges (E := E) (serialize this)
    (vcx_issuer_credential_serialize 0 (handle this))
    serialized_outcome (fun d => d).
Proof. intros w. unfold serialize. bridge_solve w. Qed.

Lemma getState_bridges (this : IssuerCredential) :
  bridges (E := E) (getState this)
    (vcx_issuer_credential_get_state 0 (handle this))
    (plain_outcome as_number) (fun st => st).
Proof. intros w. unfold getState. bridge_solve w. Qed.

Lemma updateStateV2_bridges (this : IssuerCredential)
    (connection : Connection) :
  bridges (E := E) (updateStateV2 this connection)
    (vcx_v2_issuer_credential_update_state
       0 (handle this) (connection_handle connection))
    (plain_outcome as_number) (fun st => st).
Proof. intros w. unfold updateStateV2. bridge_solve w. Qed.

(** Past the version gate, [deserialize] is one bridge call; the wrapper
    is built with the fixed parameters of the "2.0" branch. *)
Lemma deserialize_bridges (credentialData : ISerializedData) :
  version credentialData = "2.0" ->
  bridges (E := E) (deserialize credentialData)
    (vcx_issuer_credential_deserialize 0 credentialData)
    (plain_outcome as_number)
    (fun handleRes =>
       _setHandle handleRes
         (new_IssuerCredential (source_id (data credentialData))
            {| p_credDefHandle := -1;
               p_credentialName := "";
               p_attr := Some [];
               p_price := "0" |})).
Proof.
  intros Hv w. unfold deserialize. rewrite Hv. simpl. bridge_solve w.
Qed.

Lemma deserialize_gate (credentialData : ISerializedData) (w : world E) :
  version credentialData <> "2.0" ->
  deserialize credentialData w =
  (Return
     (Rejected
        (VCXInternalError
           (JsError
              ("Unsupported version provided in serialized credential data: "
               +:+ JSON_stringify_string (version credentialData))))),
   w).
Proof.
  intros Hv. unfold deserialize.
  destruct (String.eqb_spec (version credentialData) "2.0") as [Heq|Hne];
    [contradiction|].
  reflexivity.
Qed.

Section Create.

Variable JSON_stringify : IIssuerCredentialVCXAttributes -> completion string.

Lemma create_bridges (d : IIssuerCredentialCreateData)
    (attrs : option string) :
  stringified JSON_stringify (cd_attr d) = Normal attrs ->
  bridges (E := E) (create JSON_stringify d)
    (vcx_issuer_create_credential
       0 (cd_sourceId d) (cd_credDefHandle d) (cd_issuerDid d)
       attrs (cd_credentialName d) (cd_price d))
    (plain_outcome as_number)
    (fun handleRes =>
       _setHandle handleRes
         (new_IssuerCredential (cd_sourceId d)
            {| p_credDefHandle := cd_credDefHandle d;
               p_credentialName := cd_credentialName d;
               p_attr := cd_attr d;
               p_price := cd_price d |})).
Proof.
  intros Hs w. unfold create. unfold stringified in Hs.
  destruct (cd_attr d) as [a|].
  - destruct (JSON_stringify a) as [txt|e]; [|discriminate].
    injection Hs as <-. bridge_solve w.
  - injection Hs as <-. bridge_solve w.
Qed.

Lemma create_throws (d : IIssuerCredentialCreateData) (e : thrown)
    (w : world E) :
  stringified JSON_stringify (cd_attr d) = Throw e ->
  create JSON_stringify d w = (Return (Rejected (VCXInternalError e)), w).
Proof.
  intros Hs. unfold create. unfold stringified in Hs.
  destruct (cd_attr d) as [a|]; [|discriminate].
  destruct (JSON_stringify a) as [txt|e0]; [discriminate|].
  injection Hs as <-. reflexivity.
Qed.

End Create.

End Operations.

(** ** The operations as a family *)

Section Family.

Variable E : Engine.
Variable JSON_stringify : IIssuerCredentialVCXAttributes -> completion string.

Lemma as_value_bridges {A X : Type} (op : M E (async E A)) (c : native_call)
    (outcome : callback_args -> settlement X) (f : X -> A) (g : A -> value) :
  bridges op c outcome f ->
  bridges (as_value g op) c outcome (fun x => g (f x)).
Proof.
  intros Hop w. destruct (Hop w) as (p & k & Heq & Hslot & Hcell & Hcb & Hk).
  unfold as_value, bind, ret. rewrite Heq. simpl.
  eexists _, _. split; [reflexivity|]. simpl.
  repeat split; try assumption.
  intros s. rewrite Hk. destruct s; reflexivity.
Qed.

Lemma plain_outcome_ignores {X : Type} (decode : payload -> X) :
  ignores_command_handle (plain_outcome decode).
Proof. intros args n. reflexivity. Qed.

Lemma message_outcome_ignores (sid : string) :
  ignores_command_handle (message_outcome sid).
Proof. intros args n. reflexivity. Qed.

(** An operation that gets to its native call is one bridge call of it. *)
Lemma perform_bridges (o : operation) (c : native_call) :
  call_of JSON_stringify o = Some c ->
  exists (X : Type) (outcome : callback_args -> settlement X)
         (f : X -> value),
    bridges (E := E) (perform JSON_stringify o) c outcome f /\
    ignores_command_handle outcome.
Proof.
  destruct o as [d|cd|this conn|this|this|this conn|this did|this|this|this];
    simpl; intros Hc.
  - destruct (stringified JSON_stringify (cd_attr d)) as [attrs|e] eqn:Hs.
    + pose proof (create_bridges E JSON_stringify d attrs Hs) as Hb.
      unfold stringified in Hs.
      destruct (cd_attr d) as [a|].
      * destruct (JSON_stringify a); [|discriminate].
        injection Hs as <-. injection Hc as <-.
        eexists _, _, _. split;
          [apply as_value_bridges, Hb | apply plain_outcome_ignores].
      * injection Hs as <-. injection Hc as <-.
        eexists _, _, _. split;
          [apply as_value_bridges, Hb | apply plain_outcome_ignores].
    + unfold stringified in Hs. destruct (cd_attr d) as [a|]; [|discriminate].
      destruct (JSON_stringify a); discriminate.
  - destruct (String.eqb_spec (version cd) "2.0") as [Hv|Hv]; [|discriminate].
    injection Hc as <-. eexists _, _, _. split;
      [apply as_value_bridges, deserialize_bridges, Hv
      | apply plain_outcome_ignores].
  - injection Hc as <-. eexists _, _, _. split;
      [apply as_value_bridges, sendOffer_bridges
      | apply plain_outcome_ignores].
  - injection Hc as <-. eexists _, _, _. split;
      [apply as_value_bridges, getCredentialOfferMsg_bridges
      | apply message_outcome_ignores].
  - injection Hc as <-. eexists _, _, _. split;
      [apply as_value_bridges, getThreadId_bridges
      | apply plain_outcome_ignores].
  - injection Hc as <-. eexists _, _, _. split;
      [apply as_value_bridges, sendCredential_bridges
      | apply plain_outcome_ignores].
  - injection Hc as <-. eexists _, _, _. split;
      [apply as_value_bridges, getCredentialMsg_bridges
      | apply message_outcome_ignores].
  - injection Hc as <-. eexists _, _, _. split;
      [apply as_value_bridges, revokeCredential_bridges
      | apply plain_outcome_ignores].
  - injection Hc as <-. eexists _, _, _. split;
      [apply as_value_bridges, revokeCredentialLocal_bridges
      | apply plain_outcome_ignores].
  - injection Hc as <-. eexists _, _, _. split;
      [apply as_value_bridges, getRevRegId_bridges
      | apply plain_outcome_ignores].
Qed.

End Family.

(** ** The version gate of deserialize *)

Section VersionGate.

Variable E : Engine.

(** C1. [deserialize] on data whose version tag is not "2.0" rejects with
    a [VCXInternalError] around an [Error] whose message ends with the
    JSON text of that tag, from which the tag reads back, and leaves the
    world as it was: no native call is made. On data tagged "2.0" it makes
    exactly one native call, [vcx_issuer_credential_deserialize], with the
    data it was given. *)
Theorem deserialize_version_gate (credentialData : ISerializedData)
    (w : world E) :
  (version credentialData <> "2.0" ->
   run (deserialize credentialData) w =
   (Rejected
      (VCXInternalError
         (JsError
            ("Unsupported version provided in serialized credential data: "
             +:+ JSON_stringify_string (version credentialData)))),
    w) /\
   JSON_parse_string (JSON_stringify_string (version credentialData)) =
   Some (version credentialData)) /\
  (version credentialData = "2.0" ->
   trace (snd (run (deserialize credentialData) w)) =
   (trace w ++ [vcx_issuer_credential_deserialize 0 credentialData])%list).
Proof.
  split.
  - intros Hv. split; [|apply JSON_parse_stringify].
    unfold run, bind.
    rewrite (deserialize_gate E credentialData w Hv). reflexivity.
  - intros Hv.
    apply (bridges_trace E _ _ _ _ (deserialize_bridges E credentialData Hv)).
Qed.

End VersionGate.

(** The gate on a scripted engine, at the tags 1.0 and 2.0. *)
Lemma deserialize_version_gate_witness :
  run (deserialize serialized_v1) (initial scripted []) =
  (Rejected
     (VCXInternalError
        (JsError
           ("Unsupported version provided in serialized credential data: "
            +:+ JSON_stringify_string "1.0"))),
   initial scripted []) /\
  trace (snd (run (deserialize serialized_v2) (initial scripted []))) =
  [vcx_issuer_credential_deserialize 0 serialized_v2].
Proof.
  split.
  - apply (proj1 (deserialize_version_gate scripted serialized_v1
                    (initial scripted []))).
    discriminate.
  - apply (proj2 (deserialize_version_gate scripted serialized_v2
                    (initial scripted []))).
    reflexivity.
Defined.

(** ** Messages that must not be empty *)

Section Messages.

Variable E : Engine.

Lemma message_outcome_empty (sid : string) (args : callback_args) :
  err args = 0 ->
  falsy (as_string (arg args)) = true ->
  message_outcome sid args =
  Rejected (Reason ("Credential " +:+ sid +:+ " returned empty string")).
Proof.
  intros He Hf. unfold message_outcome. rewrite He, Hf. reflexivity.
Qed.

Lemma message_outcome_resolved (sid : string) (args : callback_args)
    (s : option string) :
  message_outcome sid args = Resolved s -> falsy s = false.
Proof.
  unfold message_outcome.
  destruct (truthy (err args)); [discriminate|].
  destruct (falsy (as_string (arg args))) eqn:Hf; [discriminate|].
  intros [= <-]. exact Hf.
Qed.

(** A message operation rejects on an empty delivery and never resolves
    with a falsy string, whatever the engine answers. *)
Lemma message_bridge (op : M E (async E (option string))) (c : native_call)
    (sid : string) (w : world E) :
  bridges op c (message_outcome sid) (fun r => r) ->
  (forall args : callback_args,
      rc (response_to c w) = 0 ->
      reply (response_to c w) = Some args ->
      err args = 0 ->
      falsy (as_string (arg args)) = true ->
      fst (run op w) =
      Rejected
        (VCXInternalError
           (Reason ("Credential " +:+ sid +:+ " returned empty string")))) /\
  (forall s : option string,
      fst (run op w) = Resolved s -> falsy s = false).
Proof.
  intros Hop. rewrite (bridges_run E op c _ _ Hop w). split.
  - intros args Hrc Hreply He Hf.
    rewrite (answered_zero _ _ args Hrc Hreply).
    rewrite (message_outcome_empty sid args He Hf). reflexivity.
  - intros s. unfold answered, checked.
    destruct (truthy (rc (response_to c w))).
    + destruct (reply (response_to c w)); discriminate.
    + destruct (reply (response_to c w)) as [args|]; [|discriminate].
      simpl. destruct (message_outcome sid args) as [|v|e] eqn:Ho;
        try discriminate.
      intros [= <-]. apply (message_outcome_resolved sid args v Ho).
Qed.

(** C2. When the engine accepts the call of [getCredentialOfferMsg] or
    [getCredentialMsg] and its callback reports status 0 with an empty
    or null string, the promise rejects with a [VCXInternalError] whose
    reason names the object's [sourceId]; and under no answer of the
    engine does either promise resolve with an empty or null string. *)
Theorem empty_message_rejected (this : IssuerCredential) (myPwDid : string)
    (w : world E) :
  let offer := vcx_issuer_get_credential_offer_msg 0 (handle this) in
  let credential := vcx_issuer_get_credential_msg 0 (handle this) myPwDid in
  let empty :=
    Rejected
      (VCXInternalError
         (Reason ("Credential " +:+ sourceId this
                  +:+ " returned empty string"))) in
  (forall args : callback_args,
      rc (response_to offer w) = 0 ->
      reply (response_to offer w) = Some args ->
      err args = 0 ->
      falsy (as_string (arg args)) = true ->
      fst (run (getCredentialOfferMsg this) w) = empty) /\
  (forall args : callback_args,
      rc (response_to credential w) = 0 ->
      reply (response_to credential w) = Some args ->
      err args = 0 ->
      falsy (as_string (arg args)) = true ->
      fst (run (getCredentialMsg this myPwDid) w) = empty) /\
  (forall s : option string,
      fst (run (getCredentialOfferMsg this) w) = Resolved s ->
      falsy s = false) /\
  (forall s : option string,
      fst (run (getCredentialMsg this myPwDid) w) = Resolved s ->
      falsy s = false).
Proof.
  intros offer credential empty.
  destruct (message_bridge _ offer (sourceId this) w
              (getCredentialOfferMsg_bridges E this)) as [Ho1 Ho2].
  destruct (message_bridge _ credential (sourceId this) w
              (getCredentialMsg_bridges E this myPwDid)) as [Hc1 Hc2].
  repeat split; assumption.
Qed.

(** C9. When the engine accepts the call of [getThreadId] or
    [getRevRegId] and its callback reports status 0 with a string, the
    promise resolves with that very string, the empty string and the
    null string included. *)
Theorem identifiers_pass_through (this : IssuerCredential) (w : world E) :
  let thread := vcx_issuer_credential_get_thread_id 0 (handle this) in
  let rev_reg := vcx_issuer_credential_get_rev_reg_id 0 (handle this) in
  (forall (args : callback_args) (s : option string),
      rc (response_to thread w) = 0 ->
      reply (response_to thread w) = Some args ->
      err args = 0 ->
      arg args = Str s ->
      fst (run (getThreadId this) w) = Resolved s) /\
  (forall (args : callback_args) (s : option string),
      rc (response_to rev_reg w) = 0 ->
      reply (response_to rev_reg w) = Some args ->
      err args = 0 ->
      arg args = Str s ->
      fst (run (getRevRegId this) w) = Resolved s).
Proof.
  intros thread rev_reg. split; intros args s Hrc Hreply He Ha.
  - rewrite (bridges_run E _ _ _ _ (getThreadId_bridges E this) w).
    fold thread. rewrite (answered_zero _ _ args Hrc Hreply).
    unfold plain_outcome. rewrite He, Ha. reflexivity.
  - rewrite (bridges_run E _ _ _ _ (getRevRegId_bridges E this) w).
    fold rev_reg. rewrite (answered_zero _ _ args Hrc Hreply).
    unfold plain_outcome. rewrite He, Ha. reflexivity.
Qed.

End Messages.

(** An empty offer message, a null credential message, and a message
    that is delivered. *)
Lemma empty_message_rejected_witness :
  fst (run (getCredentialOfferMsg sample_credential)
         (initial scripted [accepted 0 (Str (Some ""))])) =
  Rejected
    (VCXInternalError (Reason "Credential 12 returned empty string")) /\
  fst (run (getCredentialMsg sample_credential "pwdid")
         (initial scripted [accepted 0 (Str None)])) =
  Rejected
    (VCXInternalError (Reason "Credential 12 returned empty string")) /\
  falsy (Some "offer") = false.
Proof.
  pose proof (empty_message_rejected scripted sample_credential "pwdid"
                (initial scripted [accepted 0 (Str (Some ""))])) as H1.
  pose proof (empty_message_rejected scripted sample_credential "pwdid"
                (initial scripted [accepted 0 (Str None)])) as H2.
  pose proof (empty_message_rejected scripted sample_credential "pwdid"
                (initial scripted [accepted 0 (Str (Some "offer"))])) as H3.
  simpl in H1, H2, H3.
  destruct H1 as (H1 & _). destruct H2 as (_ & H2 & _).
  destruct H3 as (_ & _ & H3 & _).
  split; [|split].
  - apply (H1 {| xcommand_handle := 0; err := 0; arg := Str (Some "") |});
      reflexivity.
  - apply (H2 {| xcommand_handle := 0; err := 0; arg := Str None |});
      reflexivity.
  - apply (H3 (Some "offer")). reflexivity.
Defined.

(** An empty thread id and a revocation registry id. *)
Lemma identifiers_pass_through_witness :
  fst (run (getThreadId sample_credential)
         (initial scripted [accepted 0 (Str (Some ""))])) =
  Resolved (Some "") /\
  fst (run (getRevRegId sample_credential)
         (initial scripted [accepted 0 (Str (Some "rev:1"))])) =
  Resolved (Some "rev:1").
Proof.
  split.
  - apply (proj1 (identifiers_pass_through scripted sample_credential
                    (initial scripted [accepted 0 (Str (Some ""))]))
             {| xcommand_handle := 0; err := 0; arg := Str (Some "") |});
      reflexivity.
  - apply (proj2 (identifiers_pass_through scripted sample_credential
                    (initial scripted [accepted 0 (Str (Some "rev:1"))]))
             {| xcommand_handle := 0; err := 0; arg := Str (Some "rev:1") |});
      reflexivity.
Defined.

(** ** How every operation settles *)

Section Settling.

Variable E : Engine.
Variable JSON_stringify : IIssuerCredentialVCXAttributes -> completion string.

(** C6. Whenever the native call of an operation written in the class
    returns a nonzero status, the operation's promise is rejected with a
    [VCXInternalError] around that status before any callback has run,
    and that is how it stays: the callback, if the engine invokes it
    anyway, changes nothing. *)
Theorem nonzero_status_rejects_at_once (o : operation) (c : native_call)
    (w : world E) :
  call_of JSON_stringify o = Some c ->
  rc (response_to c w) <> 0 ->
  settled_now (fst (perform JSON_stringify o w)) =
  Rejected (VCXInternalError (Code (rc (response_to c w)))) /\
  fst (run (perform JSON_stringify o) w) =
  Rejected (VCXInternalError (Code (rc (response_to c w)))).
Proof.
  intros Hc Hrc.
  destruct (perform_bridges E JSON_stringify o c Hc)
    as (X & outcome & f & Hb & _).
  split.
  - rewrite (bridges_now E _ _ _ _ Hb w), (checked_nonzero _ Hrc).
    reflexivity.
  - rewrite (bridges_run E _ _ _ _ Hb w), (answered_nonzero _ _ Hrc).
    reflexivity.
Qed.







End Settling.

(** A refused revocation, and a refused offer whose callback runs all
    the same. *)
Lemma nonzero_status_rejects_at_once_witness :
  settled_now
    (fst (perform stringify_ok (op_revokeCredential sample_credential)
            (initial scripted [{| rc := 1010; reply := None |}]))) =
  Rejected (VCXInternalError (Code 1010)) /\
  fst (run (perform stringify_ok
              (op_sendOffer sample_credential sample_connection))
         (initial scripted
            [{| rc := 1003;
                reply := Some {| xcommand_handle := 0; err := 0;
                                 arg := NoValue |} |}])) =
  Rejected (VCXInternalError (Code 1003)).
Proof.
  split.
  - apply (nonzero_status_rejects_at_once scripted stringify_ok
             (op_revokeCredential sample_credential)
             (vcx_issuer_revoke_credential 0 (Some 5))
             (initial scripted [{| rc := 1010; reply := None |}])).
    + reflexivity.
    + simpl. discriminate.
  - apply (nonzero_status_rejects_at_once scripted stringify_ok
             (op_sendOffer sample_credential sample_connection)
             (vcx_issuer_send_credential_offer 0 (Some 5) 9)
             (initial scripted
                [{| rc := 1003;
                    reply := Some {| xcommand_handle := 0; err := 0;
                                     arg := NoValue |} |}])).
    + reflexivity.
    + simpl. discriminate.
Defined.

(** ** The payment manager *)

Section PaymentManager.

Variable E : Engine.
Variable JSON_stringify : IIssuerCredentialVCXAttributes -> completion string.

Lemma surfaced_resolved {X T : Type} (f : X -> T) (s : settlement X) (v : T) :
  surfaced f s = Resolved v -> exists x : X, s = Resolved x /\ v = f x.
Proof.
  destruct s as [|x|e]; simpl; try discriminate.
  intros [= <-]. exists x. split; reflexivity.
Qed.

Lemma create_resolved (d : IIssuerCredentialCreateData) (w : world E)
    (cred : IssuerCredential) :
  fst (run (create JSON_stringify d) w) = Resolved cred ->
  exists h : Z,
    cred =
    _setHandle h
      (new_IssuerCredential (cd_sourceId d)
         {| p_credDefHandle := cd_credDefHandle d;
            p_credentialName := cd_credentialName d;
            p_attr := cd_attr d;
            p_price := cd_price d |}).
Proof.
  destruct (stringified JSON_stringify (cd_attr d)) as [attrs|e] eqn:Hs.
  - rewrite (bridges_run E _ _ _ _ (create_bridges E JSON_stringify d attrs Hs) w).
    intros Hr. apply surfaced_resolved in Hr as (h & _ & ->).
    exists h. reflexivity.
  - unfold run, bind. rewrite (create_throws E JSON_stringify d e w Hs).
    discriminate.
Qed.

Lemma deserialize_resolved (credentialData : ISerializedData) (w : world E)
    (cred : IssuerCredential) :
  fst (run (deserialize credentialData) w) = Resolved cred ->
  version credentialData = "2.0" /\
  exists h : Z,
    cred =
    _setHandle h
      (new_IssuerCredential (source_id (data credentialData))
         {| p_credDefHandle := -1;
            p_credentialName := "";
            p_attr := Some [];
            p_price := "0" |}).
Proof.
  destruct (String.eqb_spec (version credentialData) "2.0") as [Hv|Hv].
  - rewrite (bridges_run E _ _ _ _ (deserialize_bridges E credentialData Hv) w).
    intros Hr. apply surfaced_resolved in Hr as (h & _ & ->).
    split; [exact Hv|]. exists h. reflexivity.
  - unfold run, bind. rewrite (deserialize_gate E credentialData w Hv).
    discriminate.
Qed.

(** C10. [_setHandle] stores the handle and builds a payment manager on
    that same handle, whatever the object held before; an object fresh
    from the constructor has neither; and every object that [create] or
    [deserialize] resolves with has its handle set and a payment manager
    on that handle. *)
Theorem payment_manager_tracks_handle :
  (forall (sid : string) (params : IIssuerCredentialParams),
      payment_manager_follows (new_IssuerCredential sid params)) /\
  (forall (h : Z) (this : IssuerCredential),
      handle (_setHandle h this) = Some h /\
      paymentManager (_setHandle h this) = Some {| pm_handle := h |} /\
      payment_manager_follows (_setHandle h this)) /\
  (forall (d : IIssuerCredentialCreateData) (w : world E)
          (cred : IssuerCredential),
      fst (run (create JSON_stringify d) w) = Resolved cred ->
      is_Some (handle cred) /\ payment_manager_follows cred) /\
  (forall (credentialData : ISerializedData) (w : world E)
          (cred : IssuerCredential),
      fst (run (deserialize credentialData) w) = Resolved cred ->
      is_Some (handle cred) /\ payment_manager_follows cred).
Proof.
  split; [|split; [|split]].
  - intros sid params. reflexivity.
  - intros h this. repeat split.
  - intros d w cred Hr. apply create_resolved in Hr as (h & ->).
    split; [exists h|]; reflexivity.
  - intros cd w cred Hr. apply deserialize_resolved in Hr as (_ & h & ->).
    split; [exists h|]; reflexivity.
Qed.

End PaymentManager.

(** The object read back from serialized data under handle 3. *)
Lemma payment_manager_tracks_handle_witness :
  payment_manager_follows
    (_setHandle 3
       (new_IssuerCredential "12"
          {| p_credDefHandle := -1;
             p_credentialName := "";
             p_attr := Some [];
             p_price := "0" |})).
Proof.
  pose proof (payment_manager_tracks_handle scripted stringify_ok)
    as (_ & _ & _ & H).
  apply (H serialized_v2 (initial scripted [accepted 0 (Num 3)])).
  reflexivity.
Defined.

(** ** Command handles *)

Section CommandHandles.

Variable E : Engine.
Variable JSON_stringify : IIssuerCredentialVCXAttributes -> completion string.

Lemma written_call_passes_zero (o : operation) (c : native_call) :
  (forall credentialData : ISerializedData, o <> op_deserialize credentialData) ->
  call_of JSON_stringify o = Some c ->
  command_handle_of c = 0.
Proof.
  intros Hnd.
  destruct o as [d|cd|this conn|this|this|this conn|this did|this|this|this];
    simpl; try (intros [= <-]; reflexivity).
  - destruct (cd_attr d) as [a|].
    + destruct (JSON_stringify a); [|discriminate].
      intros [= <-]. reflexivity.
    + intros [= <-]. reflexivity.
  - exfalso. apply (Hnd cd). reflexivity.
Qed.

(** C5, as the class has it. Every native call written in the class
    passes the command handle 0. The call is paired with its completion
    by the callback it registers: the operation is one bridge call whose
    callback sits under a reference of its own (in use by no other call,
    in a world where references in use are older than the next one), held
    from the call until the callback has run, and that callback settles
    the promise the same way whatever command handle it is invoked with. *)
Theorem command_handle_is_constant (o : operation) (c : native_call) :
  (forall credentialData : ISerializedData, o <> op_deserialize credentialData) ->
  call_of JSON_stringify o = Some c ->
  command_handle_of c = 0 /\
  (exists (X : Type) (outcome : callback_args -> settlement X)
          (f : X -> value),
      bridges (E := E) (perform JSON_stringify o) c outcome f /\
      ignores_command_handle outcome) /\
  (forall w : world E,
      trace (snd (perform JSON_stringify o w)) = (trace w ++ [c])%list /\
      inflight (snd (perform JSON_stringify o w)) !! next_slot w =
      Some (c, reply (response_to c w)) /\
      next_slot (snd (perform JSON_stringify o w)) = S (next_slot w) /\
      (forall args : callback_args,
          reply (response_to c w) = Some args ->
          inflight (snd (run (perform JSON_stringify o) w)) !! next_slot w =
          None) /\
      (slots_below w ->
       inflight w !! next_slot w = None /\
       slots_below (snd (perform JSON_stringify o w)))).
Proof.
  intros Hnd Hc. split; [exact (written_call_passes_zero o c Hnd Hc)|].
  destruct (perform_bridges E JSON_stringify o c Hc)
    as (X & outcome & f & Hb & Hi).
  split; [exists X, outcome, f; split; assumption|].
  intros w. split; [|split; [|split; [|split]]].
  - rewrite (bridges_begin E _ _ _ _ Hb w). reflexivity.
  - rewrite (bridges_begin E _ _ _ _ Hb w). apply lookup_insert_eq.
  - rewrite (bridges_begin E _ _ _ _ Hb w). reflexivity.
  - intros args Hr. apply (bridges_released E _ _ _ _ Hb w args Hr).
  - intros Hw. split; [apply slots_below_fresh, Hw|].
    apply (bridges_slots_below E _ _ _ _ Hb w Hw).
Qed.

End CommandHandles.

(** The call of [create] for the sample credential. *)
Lemma command_handle_is_constant_witness :
  command_handle_of
    (vcx_issuer_create_credential 0 "12" 7 "did" (Some "{}")
       "Drivers Licence" "0") = 0.
Proof.
  apply (command_handle_is_constant scripted stringify_ok
           (op_create sample_create)).
  - intros credentialData. discriminate.
  - reflexivity.
Defined.

(** C5, as stated, fails: with [sendOffer] begun on two objects and no
    callback run yet, the two outstanding calls carry the same command
    handle. *)
Lemma command_ids_collide :
  outstanding
    (snd (sendOffer other_credential sample_connection
            (snd (sendOffer sample_credential sample_connection
                    (initial scripted []))))) =
  [vcx_issuer_send_credential_offer 0 (Some 6) 9;
   vcx_issuer_send_credential_offer 0 (Some 5) 9] /\
  ~ command_ids_unique
      (snd (sendOffer other_credential sample_connection
              (snd (sendOffer sample_credential sample_connection
                      (initial scripted []))))).
Proof.
  assert (outstanding
            (snd (sendOffer other_credential sample_connection
                    (snd (sendOffer sample_credential sample_connection
                            (initial scripted []))))) =
          [vcx_issuer_send_credential_offer 0 (Some 6) 9;
           vcx_issuer_send_credential_offer 0 (Some 5) 9]) as Hout
    by (vm_compute; reflexivity).
  split; [exact Hout|].
  unfold command_ids_unique. rewrite Hout. simpl.
  intros Hnd. apply NoDup_cons in Hnd as [Hnotin _].
  apply Hnotin. left.
Qed.

(** ** The wrapper on the engine model *)

Section OnLibvcx.

Variable cfg : libvcx_config.
Variable JSON_stringify : IIssuerCredentialVCXAttributes -> completion string.

Local Abbreviation L := (libvcx cfg).

Lemma answered_accepted {X : Type} (outcome : callback_args -> settlement X)
    (ch : Z) (p : payload) :
  answered outcome (accepted ch p) =
  outcome {| xcommand_handle := ch; err := 0; arg := p |}.
Proof. reflexivity. Qed.

Lemma answered_refused {X : Type} (decode : payload -> X) (ch code : Z) :
  code <> 0 ->
  answered (plain_outcome decode) (refused cfg ch code) =
  Rejected (Code code).
Proof.
  intros Hc. unfold refused. destruct (refuses_at_once cfg).
  - apply answered_nonzero. exact Hc.
  - unfold answered, checked, plain_outcome. simpl.
    apply truthy_spec in Hc. rewrite Hc. reflexivity.
Qed.

Lemma find_object_stands_for (w : world L) (this : IssuerCredential)
    (o : issuer_object) :
  stands_for cfg w this o ->
  exists h : Z,
    handle this = Some h /\
    objects (engine w) !! h = Some o /\
    find_object (handle this) (engine w) = Some (h, o).
Proof.
  intros (h & Hh & Ho). exists h. repeat split; try assumption.
  unfold find_object. rewrite Hh, Ho. reflexivity.
Qed.

(** [getState] reads the state the engine keeps, and changes nothing. *)
Lemma getState_reads (w : world L) (this : IssuerCredential)
    (o : issuer_object) :
  stands_for cfg w this o ->
  reads_state cfg w this (o_state o).
Proof.
  intros Hs. apply find_object_stands_for in Hs as (h & _ & _ & Hf).
  unfold reads_state.
  rewrite (bridges_run L _ _ _ _ (getState_bridges L this) w).
  unfold response_to. simpl. rewrite Hf. reflexivity.
Qed.

(** A local action the table admits. *)
Lemma act_admitted (ch : Z) (w : world L) (this : IssuerCredential)
    (o : issuer_object) (t : trigger) (s' : IssuanceState) :
  stands_for cfg w this o ->
  transition (o_state o) t = Some s' ->
  exists h : Z,
    handle this = Some h /\
    act cfg ch (handle this) t (engine w) =
    (accepted ch NoValue,
     put_object h {| o_source_id := o_source_id o; o_state := s' |}
       (engine w)).
Proof.
  intros Hs Ht. apply find_object_stands_for in Hs as (h & Hh & _ & Hf).
  exists h. split; [exact Hh|]. unfold act. rewrite Hf, Ht. reflexivity.
Qed.

(** A local action the table does not list. *)
Lemma act_refused (ch : Z) (w : world L) (this : IssuerCredential)
    (o : issuer_object) (t : trigger) :
  stands_for cfg w this o ->
  transition (o_state o) t = None ->
  act cfg ch (handle this) t (engine w) =
  (refused cfg ch (illegal_transition cfg), engine w).
Proof.
  intros Hs Ht. apply find_object_stands_for in Hs as (h & _ & _ & Hf).
  unfold act. rewrite Hf, Ht. reflexivity.
Qed.

Lemma stands_for_after (w w' : world L) (this : IssuerCredential)
    (h : Z) (o : issuer_object) :
  handle this = Some h ->
  objects (engine w') = <[h := o]> (objects (engine w)) ->
  stands_for cfg w' this o.
Proof.
  intros Hh Ho. exists h. split; [exact Hh|].
  rewrite Ho. apply lookup_insert_eq.
Qed.

Lemma sendOffer_admitted (w : world L) (this : IssuerCredential)
    (connection : Connection) (o : issuer_object) :
  stands_for cfg w this o ->
  o_state o = Initialized ->
  fst (run (sendOffer this connection) w) = Resolved tt /\
  reads_state cfg (snd (run (sendOffer this connection) w)) this OfferSent.
Proof.
  intros Hs Hst.
  destruct (act_admitted 0 w this o trg_sendOffer OfferSent Hs)
    as (h & Hh & Hact); [rewrite Hst; reflexivity|].
  split.
  - rewrite (bridges_run L _ _ _ _ (sendOffer_bridges L this connection) w).
    unfold response_to. simpl. rewrite Hact. reflexivity.
  - apply (getState_reads _ this
             {| o_source_id := o_source_id o; o_state := OfferSent |}).
    apply (stands_for_after w _ this h _ Hh).
    rewrite (bridges_engine L _ _ _ _ (sendOffer_bridges L this connection) w).
    simpl. rewrite Hact. reflexivity.
Qed.

Lemma sendCredential_admitted (w : world L) (this : IssuerCredential)
    (connection : Connection) (o : issuer_object) :
  stands_for cfg w this o ->
  o_state o = RequestReceived ->
  fst (run (sendCredential this connection) w) = Resolved tt /\
  reads_state cfg (snd (run (sendCredential this connection) w)) this
    Accepted.
Proof.
  intros Hs Hst.
  destruct (act_admitted 0 w this o trg_sendCredential Accepted Hs)
    as (h & Hh & Hact); [rewrite Hst; reflexivity|].
  split.
  - rewrite (bridges_run L _ _ _ _
               (sendCredential_bridges L this connection) w).
    unfold response_to. simpl. rewrite Hact. reflexivity.
  - apply (getState_reads _ this
             {| o_source_id := o_source_id o; o_state := Accepted |}).
    apply (stands_for_after w _ this h _ Hh).
    rewrite (bridges_engine L _ _ _ _
               (sendCredential_bridges L this connection) w).
    simpl. rewrite Hact. reflexivity.
Qed.

Lemma sendCredential_refused (w : world L) (this : IssuerCredential)
    (connection : Connection) (o : issuer_object) :
  illegal_transition cfg <> 0 ->
  stands_for cfg w this o ->
  transition (o_state o) trg_sendCredential = None ->
  fst (run (sendCredential this connection) w) =
  Rejected (VCXInternalError (Code (illegal_transition cfg))) /\
  reads_state cfg (snd (run (sendCredential this connection) w)) this
    (o_state o).
Proof.
  intros Hcode Hs Ht.
  pose proof (act_refused 0 w this o trg_sendCredential Hs Ht) as Hact.
  split.
  - rewrite (bridges_run L _ _ _ _
               (sendCredential_bridges L this connection) w).
    unfold response_to. simpl. rewrite Hact. simpl.
    rewrite (answered_refused _ 0 _ Hcode). reflexivity.
  - apply getState_reads.
    destruct Hs as (h & Hh & Ho). exists h. split; [exact Hh|].
    rewrite (bridges_engine L _ _ _ _
               (sendCredential_bridges L this connection) w).
    simpl. rewrite Hact. exact Ho.
Qed.

(** A refresh applies the messages pending on the connection. *)
Lemma updateStateV2_receives (w : world L) (this : IssuerCredential)
    (connection : Connection) (o : issuer_object)
    (pending : list protocol_message) :
  stands_for cfg w this o ->
  inbox (engine w) !! connection_handle connection = Some pending ->
  fst (run (updateStateV2 this connection) w) =
  Resolved (state_code cfg (fold_left receive pending (o_state o))) /\
  reads_state cfg (snd (run (updateStateV2 this connection) w)) this
    (fold_left receive pending (o_state o)).
Proof.
  intros Hs Hin.
  apply find_object_stands_for in Hs as (h & Hh & _ & Hf).
  split.
  - rewrite (bridges_run L _ _ _ _
               (updateStateV2_bridges L this connection) w).
    unfold response_to. simpl. rewrite Hf, Hin. reflexivity.
  - apply (getState_reads _ this
             {| o_source_id := o_source_id o;
                o_state := fold_left receive pending (o_state o) |}).
    apply (stands_for_after w _ this h _ Hh).
    rewrite (bridges_engine L _ _ _ _
               (updateStateV2_bridges L this connection) w).
    simpl. rewrite Hf, Hin. reflexivity.
Qed.

(** [create] on the engine model: a new native object in the state the
    table gives for [create], bound to the wrapper under its source id. *)
Lemma create_on_libvcx (d : IIssuerCredentialCreateData) (w : world L)
    (attrs : option string) :
  stringified JSON_stringify (cd_attr d) = Normal attrs ->
  exists cred : IssuerCredential,
    fst (run (create JSON_stringify d) w) = Resolved cred /\
    sourceId cred = cd_sourceId d /\
    bound cfg (snd (run (create JSON_stringify d) w)) cred
      {| o_source_id := cd_sourceId d; o_state := Initialized |}.
Proof.
  intros Hs.
  pose proof (create_bridges L JSON_stringify d attrs Hs) as Hb.
  eexists. split; [|split].
  - rewrite (bridges_run L _ _ _ _ Hb w). unfold response_to. simpl.
    reflexivity.
  - reflexivity.
  - split; [|reflexivity].
    exists (next_handle (engine w)). split; [reflexivity|].
    rewrite (bridges_engine L _ _ _ _ Hb w). simpl.
    apply lookup_insert_eq.
Qed.

Lemma parse_state_text (s : IssuanceState) :
  parse_state (state_text s) = Some s.
Proof. destruct s; reflexivity. Qed.

(** [serialize] on the engine model. *)
Lemma serialize_on_libvcx (w : world L) (this : IssuerCredential)
    (o : issuer_object) :
  stands_for cfg w this o ->
  fst (run (serialize this) w) =
  Resolved {| version := "2.0";
              data := {| issuer_sm := state_text (o_state o);
                         source_id := o_source_id o |} |} /\
  engine (snd (run (serialize this) w)) = engine w.
Proof.
  intros Hs. apply find_object_stands_for in Hs as (h & _ & _ & Hf).
  split.
  - rewrite (bridges_run L _ _ _ _ (serialize_bridges L this) w).
    unfold response_to. simpl. rewrite Hf. reflexivity.
  - rewrite (bridges_engine L _ _ _ _ (serialize_bridges L this) w).
    simpl. rewrite Hf. reflexivity.
Qed.

(** [deserialize] on the engine model, for data the engine has written. *)
Lemma deserialize_on_libvcx (w : world L) (sid : string)
    (s : IssuanceState) :
  let d := {| version := "2.0";
              data := {| issuer_sm := state_text s; source_id := sid |} |} in
  exists cred : IssuerCredential,
    fst (run (deserialize d) w) = Resolved cred /\
    sourceId cred = sid /\
    bound cfg (snd (run (deserialize d) w)) cred
      {| o_source_id := sid; o_state := s |}.
Proof.
  intros d.
  assert (version d = "2.0") as Hv by reflexivity.
  pose proof (deserialize_bridges L d Hv) as Hb.
  eexists. split; [|split].
  - rewrite (bridges_run L _ _ _ _ Hb w). unfold response_to. simpl.
    rewrite parse_state_text. reflexivity.
  - reflexivity.
  - split; [|reflexivity].
    exists (next_handle (engine w)). split; [reflexivity|].
    rewrite (bridges_engine L _ _ _ _ Hb w). simpl.
    rewrite parse_state_text. simpl. apply lookup_insert_eq.
Qed.

(** C3. On the engine model, each row of the transition table is what
    the wrapper observes: [create] gives an object that reads
    [Initialized]; [sendOffer] on an [Initialized] object resolves and the
    object reads [OfferSent]; a refresh with a pending CredentialRequest
    (resp. ProblemReport) on an [OfferSent] object reads [RequestReceived]
    (resp. [StateNone]); [sendCredential] on a [RequestReceived] object
    resolves and the object reads [Accepted]; a refresh with a pending
    Ack on an [Accepted] object reads [Accepted]. And [sendCredential] on
    an [Initialized] object rejects with a [VCXInternalError] around the
    engine's nonzero status, the object still reading [Initialized]. *)
Theorem issuance_table_conformance (w : world L) (this : IssuerCredential)
    (connection : Connection) (o : issuer_object)
    (d : IIssuerCredentialCreateData) (attrs : option string) :
  illegal_transition cfg <> 0 ->
  stands_for cfg w this o ->
  stringified JSON_stringify (cd_attr d) = Normal attrs ->
  (exists cred : IssuerCredential,
      fst (run (create JSON_stringify d) w) = Resolved cred /\
      reads_state cfg (snd (run (create JSON_stringify d) w)) cred
        Initialized) /\
  (o_state o = Initialized ->
   fst (run (sendOffer this connection) w) = Resolved tt /\
   reads_state cfg (snd (run (sendOffer this connection) w)) this
     OfferSent) /\
  (o_state o = OfferSent ->
   inbox (engine w) !! connection_handle connection
   = Some [CredentialRequest] ->
   fst (run (updateStateV2 this connection) w) =
   Resolved (state_code cfg RequestReceived) /\
   reads_state cfg (snd (run (updateStateV2 this connection) w)) this
     RequestReceived) /\
  (o_state o = OfferSent ->
   inbox (engine w) !! connection_handle connection
   = Some [ProblemReport] ->
   fst (run (updateStateV2 this connection) w) =
   Resolved (state_code cfg StateNone) /\
   reads_state cfg (snd (run (updateStateV2 this connection) w)) this
     StateNone) /\
  (o_state o = RequestReceived ->
   fst (run (sendCredential this connection) w) = Resolved tt /\
   reads_state cfg (snd (run (sendCredential this connection) w)) this
     Accepted) /\
  (o_state o = Accepted ->
   inbox (engine w) !! connection_handle connection = Some [Ack] ->
   fst (run (updateStateV2 this connection) w) =
   Resolved (state_code cfg Accepted) /\
   reads_state cfg (snd (run (updateStateV2 this connection) w)) this
     Accepted) /\
  (o_state o = Initialized ->
   fst (run (sendCredential this connection) w) =
   Rejected (VCXInternalError (Code (illegal_transition cfg))) /\
   reads_state cfg (snd (run (sendCredential this connection) w)) this
     Initialized).
Proof.
  intros Hcode Hs Hattrs.
  split; [|split; [|split; [|split; [|split; [|split]]]]].
  - destruct (create_on_libvcx d w attrs Hattrs) as (cred & Hr & _ & Hb & _).
    exists cred. split; [exact Hr|].
    apply (getState_reads _ cred _ Hb).
  - intros Hst. apply (sendOffer_admitted w this connection o Hs Hst).
  - intros Hst Hin.
    pose proof (updateStateV2_receives w this connection o _ Hs Hin) as H.
    rewrite Hst in H. exact H.
  - intros Hst Hin.
    pose proof (updateStateV2_receives w this connection o _ Hs Hin) as H.
    rewrite Hst in H. exact H.
  - intros Hst. apply (sendCredential_admitted w this connection o Hs Hst).
  - intros Hst Hin.
    pose proof (updateStateV2_receives w this connection o _ Hs Hin) as H.
    rewrite Hst in H. exact H.
  - intros Hst.
    assert (transition (o_state o) trg_sendCredential = None) as Ht
      by (rewrite Hst; reflexivity).
    pose proof (sendCredential_refused w this connection o Hcode Hs Ht) as H.
    rewrite Hst in H. exact H.
Qed.

(** C4. On the engine model, for an object bound to a live native object:
    [serialize] resolves with data that [deserialize] accepts, and the
    object [deserialize] resolves with has the source id of the original
    and reads the state the original read when it was serialized. *)
Theorem serialize_deserialize_round_trip (w : world L)
    (this : IssuerCredential) (o : issuer_object) :
  bound cfg w this o ->
  exists (d : ISerializedData) (cred : IssuerCredential),
    fst (run (serialize this) w) = Resolved d /\
    fst (run (deserialize d) (snd (run (serialize this) w))) =
    Resolved cred /\
    sourceId cred = sourceId this /\
    reads_state cfg w this (o_state o) /\
    reads_state cfg
      (snd (run (deserialize d) (snd (run (serialize this) w))))
      cred (o_state o).
Proof.
  intros [Hs Hsid].
  destruct (serialize_on_libvcx w this o Hs) as [Hser _].
  destruct (deserialize_on_libvcx (snd (run (serialize this) w))
              (o_source_id o) (o_state o))
    as (cred & Hde & Hcs & Hb & _).
  eexists _, cred. split; [exact Hser|]. split; [exact Hde|].
  split; [rewrite Hcs; exact Hsid|].
  split; [exact (getState_reads w this o Hs)|].
  apply (getState_reads _ cred _ Hb).
Qed.

End OnLibvcx.

(** The rows of the table on the sample engine, whose refusal status for
    an unlisted action is 1005. *)
Lemma issuance_table_conformance_witness :
  reads_state sample_config
    (snd (run (sendOffer sample_credential sample_connection)
            (world_in Initialized [])))
    sample_credential OfferSent /\
  reads_state sample_config
    (snd (run (updateStateV2 sample_credential sample_connection)
            (world_in OfferSent [CredentialRequest])))
    sample_credential RequestReceived /\
  reads_state sample_config
    (snd (run (updateStateV2 sample_credential sample_connection)
            (world_in OfferSent [ProblemReport])))
    sample_credential StateNone /\
  reads_state sample_config
    (snd (run (sendCredential sample_credential sample_connection)
            (world_in RequestReceived [])))
    sample_credential Accepted /\
  reads_state sample_config
    (snd (run (updateStateV2 sample_credential sample_connection)
            (world_in Accepted [Ack])))
    sample_credential Accepted /\
  fst (run (sendCredential sample_credential sample_connection)
         (world_in Initialized [])) =
  Rejected (VCXInternalError (Code 1005)).
Proof.
  assert (forall s pending,
             stands_for sample_config (world_in s pending) sample_credential
               {| o_source_id := "12"; o_state := s |}) as Hs
    by (intros s pending; exists 5; split; reflexivity).
  assert (illegal_transition sample_config <> 0) as Hcode
    by (simpl; discriminate).
  assert (stringified stringify_ok (cd_attr sample_create)
          = Normal (Some "{}")) as Hattrs by reflexivity.
  split; [|split; [|split; [|split; [|split]]]].
  - apply (issuance_table_conformance sample_config stringify_ok
             (world_in Initialized []) sample_credential sample_connection
             _ sample_create _ Hcode (Hs _ _) Hattrs).
    reflexivity.
  - apply (issuance_table_conformance sample_config stringify_ok
             (world_in OfferSent [CredentialRequest]) sample_credential
             sample_connection _ sample_create _ Hcode (Hs _ _) Hattrs);
      reflexivity.
  - apply (issuance_table_conformance sample_config stringify_ok
             (world_in OfferSent [ProblemReport]) sample_credential
             sample_connection _ sample_create _ Hcode (Hs _ _) Hattrs);
      reflexivity.
  - apply (issuance_table_conformance sample_config stringify_ok
             (world_in RequestReceived []) sample_credential
             sample_connection _ sample_create _ Hcode (Hs _ _) Hattrs).
    reflexivity.
  - apply (issuance_table_conformance sample_config stringify_ok
             (world_in Accepted [Ack]) sample_credential
             sample_connection _ sample_create _ Hcode (Hs _ _) Hattrs);
      reflexivity.
  - apply (issuance_table_conformance sample_config stringify_ok
             (world_in Initialized []) sample_credential sample_connection
             _ sample_create _ Hcode (Hs _ _) Hattrs).
    reflexivity.
Defined.

(** The round trip of the sample credential in state [Accepted]. *)
Lemma serialize_deserialize_round_trip_witness :
  exists (d : ISerializedData) (cred : IssuerCredential),
    fst (run (serialize sample_credential) (world_in Accepted [])) =
    Resolved d /\
    fst (run (deserialize d)
           (snd (run (serialize sample_credential) (world_in Accepted []))))
    = Resolved cred /\
    sourceId cred = "12" /\
    reads_state sample_config (world_in Accepted []) sample_credential
      Accepted /\
    reads_state sample_config
      (snd (run (deserialize d)
              (snd (run (serialize sample_credential)
                      (world_in Accepted [])))))
      cred Accepted.
Proof.
  apply (serialize_deserialize_round_trip sample_config
           (world_in Accepted []) sample_credential
           {| o_source_id := "12"; o_state := Accepted |}).
  split; [exists 5; split; reflexivity | reflexivity].
Defined.

(** ** Creating a credential *)

(** C8. When encoding the attributes throws, [create] has ended without
    suspending and without a native call: the world is as it was and the
    promise is rejected with a [VCXInternalError] around what the encoder
    threw. A credential [create] resolves with carries the given source
    id and a handle; on the engine model it resolves whenever the
    encoding succeeds, and the new object reads [Initialized]. *)
Theorem create_fails_early_or_binds (E : Engine)
    (JSON_stringify : IIssuerCredentialVCXAttributes -> completion string)
    (cfg : libvcx_config) (d : IIssuerCredentialCreateData)
    (w : world E) (wl : world (libvcx cfg)) :
  (forall e : thrown,
      stringified JSON_stringify (cd_attr d) = Throw e ->
      create JSON_stringify d w =
      (Return (Rejected (VCXInternalError e)), w) /\
      run (create JSON_stringify d) w = (Rejected (VCXInternalError e), w)) /\
  (forall cred : IssuerCredential,
      fst (run (create JSON_stringify d) w) = Resolved cred ->
      sourceId cred = cd_sourceId d /\ is_Some (handle cred)) /\
  (forall attrs : option string,
      stringified JSON_stringify (cd_attr d) = Normal attrs ->
      exists cred : IssuerCredential,
        fst (run (create JSON_stringify d) wl) = Resolved cred /\
        sourceId cred = cd_sourceId d /\
        reads_state cfg (snd (run (create JSON_stringify d) wl)) cred
          Initialized).
Proof.
  split; [|split].
  - intros e Hs. pose proof (create_throws E JSON_stringify d e w Hs) as Hc.
    split; [exact Hc|]. unfold run, bind. rewrite Hc. reflexivity.
  - intros cred Hr. apply create_resolved in Hr as (h & ->).
    split; [reflexivity | exists h; reflexivity].
  - intros attrs Hs.
    destruct (create_on_libvcx cfg JSON_stringify d wl attrs Hs)
      as (cred & Hr & Hsid & Hb & _).
    exists cred. repeat split; try assumption.
    apply (getState_reads cfg _ cred _ Hb).
Qed.

(** [create] with an encoder that throws, and with one that does not. *)
Lemma create_fails_early_or_binds_witness :
  run (create stringify_fails sample_create) (world_in Initialized []) =
  (Rejected
     (VCXInternalError (JsError "Do not know how to serialize a BigInt")),
   world_in Initialized []) /\
  exists cred : IssuerCredential,
    fst (run (create stringify_ok sample_create) (world_in Initialized []))
    = Resolved cred /\
    sourceId cred = "12" /\
    reads_state sample_config
      (snd (run (create stringify_ok sample_create)
              (world_in Initialized [])))
      cred Initialized.
Proof.
  split.
  - apply (create_fails_early_or_binds (libvcx sample_config)
             stringify_fails sample_config sample_create
             (world_in Initialized []) (world_in Initialized [])).
    reflexivity.
  - apply (proj2 (proj2 (create_fails_early_or_binds (libvcx sample_config)
                           stringify_ok sample_config sample_create
                           (world_in Initialized [])
                           (world_in Initialized [])))
             (Some "{}")).
    reflexivity.
Defined.

(** ** The scenario of the spec *)

(** Create, offer, request received, credential sent, then serialized
    and read back: the states read are Initialized, OfferSent,
    RequestReceived, Accepted, and Accepted again on the object read back,
    which carries source id 12. *)
Example end_to_end_scenario :
  end_to_end =
  Some ([Resolved 1; Resolved 2; Resolved 3; Resolved 4; Resolved 4], "12").
Proof. vm_compute. reflexivity. Qed.

(** * More facts about the class *)

(** ** What the callback decides *)

Section Callbacks.

Variable E : Engine.
Variable JSON_stringify : IIssuerCredentialVCXAttributes -> completion string.

(** An accepted call that is called back ends as its callback says. *)
Lemma bridges_answer {T X : Type} (op : M E (async E T)) (c : native_call)
    (outcome : callback_args -> settlement X) (f : X -> T) (w : world E)
    (args : callback_args) :
  bridges op c outcome f ->
  rc (response_to c w) = 0 ->
  reply (response_to c w) = Some args ->
  fst (run op w) = surfaced f (outcome args).
Proof.
  intros Hb Hrc Hr. rewrite (bridges_run E _ _ _ _ Hb w).
  rewrite (answered_zero _ _ args Hrc Hr). reflexivity.
Qed.

Lemma plain_outcome_error {X : Type} (decode : payload -> X)
    (args : callback_args) :
  err args <> 0 -> plain_outcome decode args = Rejected (Code (err args)).
Proof.
  intros He. unfold plain_outcome. apply truthy_spec in He. rewrite He.
  reflexivity.
Qed.

Lemma message_outcome_error (sid : string) (args : callback_args) :
  err args <> 0 -> message_outcome sid args = Rejected (Code (err args)).
Proof.
  intros He. unfold message_outcome. apply truthy_spec in He. rewrite He.
  reflexivity.
Qed.

Lemma plain_outcome_success {X : Type} (decode : payload -> X)
    (args : callback_args) :
  err args = 0 -> plain_outcome decode args = Resolved (decode (arg args)).
Proof. intros He. unfold plain_outcome. rewrite He. reflexivity. Qed.

Lemma message_outcome_success (sid : string) (args : callback_args)
    (m : string) :
  err args = 0 -> arg args = Str (Some m) -> m <> "" ->
  message_outcome sid args = Resolved (Some m).
Proof.
  intros He Ha Hm. unfold message_outcome. rewrite He, Ha. simpl.
  destruct (String.eqb_spec m "") as [Heq|_]; [contradiction|].
  reflexivity.
Qed.

(** X1. When the engine accepts the call of an operation of an existing
    object and its callback reports a nonzero status, the promise rejects
    with a [VCXInternalError] around that status, whatever else the
    callback delivers: a message beside a nonzero status is ignored, and
    an empty message beside a nonzero status gives the status, not the
    empty-string reason. *)
Theorem callback_error_rejects (o : operation) (c : native_call)
    (w : world E) (args : callback_args) :
  instance_operation o = true ->
  call_of JSON_stringify o = Some c ->
  rc (response_to c w) = 0 ->
  reply (response_to c w) = Some args ->
  err args <> 0 ->
  fst (run (perform JSON_stringify o) w) =
  Rejected (VCXInternalError (Code (err args))).
Proof.
  intros Hi Hc Hrc Hr He.
  destruct o as [d|cd|this conn|this|this|this conn|this did|this|this|this];
    try discriminate Hi; simpl in Hc; injection Hc as <-; unfold perform.
  - rewrite (bridges_answer _ _ _ _ w args
               (as_value_bridges E _ _ _ _ _ (sendOffer_bridges E this conn))
               Hrc Hr).
    rewrite (plain_outcome_error _ args He). reflexivity.
  - rewrite (bridges_answer _ _ _ _ w args
               (as_value_bridges E _ _ _ _ VString
                  (getCredentialOfferMsg_bridges E this))
               Hrc Hr).
    rewrite (message_outcome_error _ args He). reflexivity.
  - rewrite (bridges_answer _ _ _ _ w args
               (as_value_bridges E _ _ _ _ VString (getThreadId_bridges E this))
               Hrc Hr).
    rewrite (plain_outcome_error _ args He). reflexivity.
  - rewrite (bridges_answer _ _ _ _ w args
               (as_value_bridges E _ _ _ _ _
                  (sendCredential_bridges E this conn))
               Hrc Hr).
    rewrite (plain_outcome_error _ args He). reflexivity.
  - rewrite (bridges_answer _ _ _ _ w args
               (as_value_bridges E _ _ _ _ VString
                  (getCredentialMsg_bridges E this did))
               Hrc Hr).
    rewrite (message_outcome_error _ args He). reflexivity.
  - rewrite (bridges_answer _ _ _ _ w args
               (as_value_bridges E _ _ _ _ _ (revokeCredential_bridges E this))
               Hrc Hr).
    rewrite (plain_outcome_error _ args He). reflexivity.
  - rewrite (bridges_answer _ _ _ _ w args
               (as_value_bridges E _ _ _ _ _
                  (revokeCredentialLocal_bridges E this))
               Hrc Hr).
    rewrite (plain_outcome_error _ args He). reflexivity.
  - rewrite (bridges_answer _ _ _ _ w args
               (as_value_bridges E _ _ _ _ VString (getRevRegId_bridges E this))
               Hrc Hr).
    rewrite (plain_outcome_error _ args He). reflexivity.
Qed.

(** X2. When the engine accepts the call of [sendOffer],
    [sendCredential], [revokeCredential] or [revokeCredentialLocal] and
    its callback reports status 0, the promise resolves, with no value,
    whatever payload the engine passed along. *)
Theorem void_operations_resolve (o : operation) (c : native_call)
    (w : world E) (args : callback_args) :
  void_operation o = true ->
  call_of JSON_stringify o = Some c ->
  rc (response_to c w) = 0 ->
  reply (response_to c w) = Some args ->
  err args = 0 ->
  fst (run (perform JSON_stringify o) w) = Resolved VVoid.
Proof.
  intros Hv Hc Hrc Hr He.
  destruct o as [d|cd|this conn|this|this|this conn|this did|this|this|this];
    try discriminate Hv; simpl in Hc; injection Hc as <-; unfold perform.
  - rewrite (bridges_answer _ _ _ _ w args
               (as_value_bridges E _ _ _ _ _ (sendOffer_bridges E this conn))
               Hrc Hr).
    rewrite (plain_outcome_success _ args He). reflexivity.
  - rewrite (bridges_answer _ _ _ _ w args
               (as_value_bridges E _ _ _ _ _
                  (sendCredential_bridges E this conn))
               Hrc Hr).
    rewrite (plain_outcome_success _ args He). reflexivity.
  - rewrite (bridges_answer _ _ _ _ w args
               (as_value_bridges E _ _ _ _ _ (revokeCredential_bridges E this))
               Hrc Hr).
    rewrite (plain_outcome_success _ args He). reflexivity.
  - rewrite (bridges_answer _ _ _ _ w args
               (as_value_bridges E _ _ _ _ _
                  (revokeCredentialLocal_bridges E this))
               Hrc Hr).
    rewrite (plain_outcome_success _ args He). reflexivity.
Qed.

(** X3. When the engine accepts the call of [getCredentialOfferMsg] or
    [getCredentialMsg] and its callback reports status 0 with a
    non-empty message, the promise resolves with exactly that message. *)
Theorem message_delivered (this : IssuerCredential) (myPwDid : string)
    (w : world E) :
  let offer := vcx_issuer_get_credential_offer_msg 0 (handle this) in
  let credential := vcx_issuer_get_credential_msg 0 (handle this) myPwDid in
  (forall (args : callback_args) (m : string),
      rc (response_to offer w) = 0 ->
      reply (response_to offer w) = Some args ->
      err args = 0 ->
      arg args = Str (Some m) ->
      m <> "" ->
      fst (run (getCredentialOfferMsg this) w) = Resolved (Some m)) /\
  (forall (args : callback_args) (m : string),
      rc (response_to credential w) = 0 ->
      reply (response_to credential w) = Some args ->
      err args = 0 ->
      arg args = Str (Some m) ->
      m <> "" ->
      fst (run (getCredentialMsg this myPwDid) w) = Resolved (Some m)).
Proof.
  intros offer credential. split; intros args m Hrc Hr He Ha Hm.
  - rewrite (bridges_answer _ _ _ _ w args
               (getCredentialOfferMsg_bridges E this) Hrc Hr).
    rewrite (message_outcome_success _ args m He Ha Hm). reflexivity.
  - rewrite (bridges_answer _ _ _ _ w args
               (getCredentialMsg_bridges E this myPwDid) Hrc Hr).
    rewrite (message_outcome_success _ args m He Ha Hm). reflexivity.
Qed.

End Callbacks.

(** A failed offer message with a message beside the status, and a failed
    revocation. *)
Lemma callback_error_rejects_witness :
  fst (run (perform stringify_ok (op_getCredentialOfferMsg sample_credential))
         (initial scripted [failed 1017 (Str (Some "offer"))])) =
  Rejected (VCXInternalError (Code 1017)) /\
  fst (run (perform stringify_ok (op_revokeCredential sample_credential))
         (initial scripted [failed 1090 NoValue])) =
  Rejected (VCXInternalError (Code 1090)).
Proof.
  split.
  - apply (callback_error_rejects scripted stringify_ok
             (op_getCredentialOfferMsg sample_credential)
             (vcx_issuer_get_credential_offer_msg 0 (Some 5))
             (initial scripted [failed 1017 (Str (Some "offer"))])
             {| xcommand_handle := 0; err := 1017;
                arg := Str (Some "offer") |});
      try reflexivity.
    simpl. discriminate.
  - apply (callback_error_rejects scripted stringify_ok
             (op_revokeCredential sample_credential)
             (vcx_issuer_revoke_credential 0 (Some 5))
             (initial scripted [failed 1090 NoValue])
             {| xcommand_handle := 0; err := 1090; arg := NoValue |});
      try reflexivity.
    simpl. discriminate.
Defined.

(** An offer sent, with a string passed along by the engine. *)
Lemma void_operations_resolve_witness :
  fst (run (perform stringify_ok
              (op_sendOffer sample_credential sample_connection))
         (initial scripted [accepted 0 (Str (Some "ignored"))])) =
  Resolved VVoid.
Proof.
  apply (void_operations_resolve scripted stringify_ok
           (op_sendOffer sample_credential sample_connection)
           (vcx_issuer_send_credential_offer 0 (Some 5) 9)
           (initial scripted [accepted 0 (Str (Some "ignored"))])
           {| xcommand_handle := 0; err := 0;
              arg := Str (Some "ignored") |});
    reflexivity.
Defined.

(** An offer message and a credential message delivered. *)
Lemma message_delivered_witness :
  fst (run (getCredentialOfferMsg sample_credential)
         (initial scripted [accepted 0 (Str (Some "offer"))])) =
  Resolved (Some "offer") /\
  fst (run (getCredentialMsg sample_credential "pwdid")
         (initial scripted [accepted 0 (Str (Some "credential"))])) =
  Resolved (Some "credential").
Proof.
  split.
  - apply (proj1 (message_delivered scripted sample_credential "pwdid"
                    (initial scripted [accepted 0 (Str (Some "offer"))]))
             {| xcommand_handle := 0; err := 0; arg := Str (Some "offer") |});
      try reflexivity.
    discriminate.
  - apply (proj2 (message_delivered scripted sample_credential "pwdid"
                    (initial scripted
                       [accepted 0 (Str (Some "credential"))]))
             {| xcommand_handle := 0; err := 0;
                arg := Str (Some "credential") |});
      try reflexivity.
    discriminate.
Defined.

(** ** The native calls of an operation *)

Section Calls.

Variable E : Engine.
Variable JSON_stringify : IIssuerCredentialVCXAttributes -> completion string.

(** An operation that makes no call fails as it stands, in the world it
    was started in. *)
Lemma perform_local_failure (o : operation) (w : world E) :
  call_of JSON_stringify o = None ->
  exists e : thrown,
    perform JSON_stringify o w = (Return (Rejected e), w).
Proof.
  destruct o as [d|cd|this conn|this|this|this conn|this did|this|this|this];
    simpl; try discriminate.
  - intros Hc.
    assert (exists e, stringified JSON_stringify (cd_attr d) = Throw e)
      as [e He].
    { unfold stringified. destruct (cd_attr d) as [a|]; [|discriminate].
      destruct (JSON_stringify a) as [txt|e]; [discriminate|].
      exists e. reflexivity. }
    exists (VCXInternalError e). unfold as_value, bind, ret.
    rewrite (create_throws E JSON_stringify d e w He). reflexivity.
  - destruct (String.eqb_spec (version cd) "2.0") as [Hv|Hv];
      [discriminate|].
    intros _. eexists. unfold as_value, bind, ret.
    rewrite (deserialize_gate E cd w Hv). reflexivity.
Qed.

(** The world an operation leaves: the one after its call, with the
    callback reference dropped or not. *)
Lemma bridges_final_world {T X : Type} (op : M E (async E T))
    (c : native_call) (outcome : callback_args -> settlement X) (f : X -> T)
    (w : world E) :
  bridges op c outcome f ->
  snd (run op w) = after_call c w \/
  snd (run op w) = release_slot E (next_slot w) (after_call c w).
Proof.
  intros Hop.
  destruct (Hop w) as (p & k & Heq & Hslot & Hcell & Hcb & Hk).
  unfold run, bind. rewrite Heq. unfold deliver, ret.
  rewrite Hslot. unfold after_call at 1. simpl.
  rewrite lookup_insert_eq.
  destruct (reply (response_to c w)) as [args|].
  - rewrite Hcb. right. reflexivity.
  - simpl. destruct (is_settled (cell p)); [right | left]; reflexivity.
Qed.

Lemma release_slot_below (k : nat) (w : world E) :
  slots_below w -> slots_below (release_slot E k w).
Proof.
  intros Hw j. unfold release_slot. simpl.
  destruct (decide (k = j)) as [<-|Hne].
  - rewrite lookup_delete_eq. intros [x Hx]. discriminate.
  - rewrite lookup_delete_ne by exact Hne. apply Hw.
Qed.

Lemma perform_trace_engine (o : operation) (w : world E) :
  trace (snd (run (perform JSON_stringify o) w)) =
  (trace w ++ calls_of JSON_stringify o)%list /\
  engine (snd (run (perform JSON_stringify o) w)) =
  match call_of JSON_stringify o with
  | Some c => snd (invoke E c (engine w))
  | None => engine w
  end.
Proof.
  unfold calls_of.
  destruct (call_of JSON_stringify o) as [c|] eqn:Hc.
  - destruct (perform_bridges E JSON_stringify o c Hc)
      as (X & outcome & f & Hb & _).
    split.
    + apply (bridges_trace E _ _ _ _ Hb w).
    + apply (bridges_engine E _ _ _ _ Hb w).
  - destruct (perform_local_failure o w Hc) as [e He].
    unfold run, bind. rewrite He. simpl. rewrite app_nil_r.
    split; reflexivity.
Qed.

Lemma perform_slots_below (o : operation) (w : world E) :
  slots_below w -> slots_below (snd (run (perform JSON_stringify o) w)).
Proof.
  intros Hw.
  destruct (call_of JSON_stringify o) as [c|] eqn:Hc.
  - destruct (perform_bridges E JSON_stringify o c Hc)
      as (X & outcome & f & Hb & _).
    pose proof (bridges_slots_below E _ _ _ _ Hb w Hw) as Hafter.
    rewrite (bridges_begin E _ _ _ _ Hb w) in Hafter.
    destruct (bridges_final_world _ c _ f w Hb) as [-> | ->].
    + exact Hafter.
    + apply release_slot_below, Hafter.
  - destruct (perform_local_failure o w Hc) as [e He].
    unfold run, bind. rewrite He. exact Hw.
Qed.

(** X4. An operation written in the class consults the engine exactly
    once when it gets to its native call, and not at all when it fails
    before it: run to the end of its await, it has added to the trace its
    one call or nothing, the engine has taken that one call or is
    untouched, and after a local failure the whole world is as it was.
    Nothing is called twice or retried. *)
Theorem one_native_call_per_operation (o : operation) (w : world E) :
  trace (snd (run (perform JSON_stringify o) w)) =
  (trace w ++ calls_of JSON_stringify o)%list /\
  (List.length (calls_of JSON_stringify o) <= 1)%nat /\
  engine (snd (run (perform JSON_stringify o) w)) =
  match call_of JSON_stringify o with
  | Some c => snd (invoke E c (engine w))
  | None => engine w
  end /\
  (call_of JSON_stringify o = None ->
   snd (run (perform JSON_stringify o) w) = w).
Proof.
  destruct (perform_trace_engine o w) as [Ht He].
  split; [exact Ht|]. split; [|split; [exact He|]].
  - unfold calls_of. destruct (call_of JSON_stringify o); simpl; lia.
  - intros Hc. destruct (perform_local_failure o w Hc) as [e Hl].
    unfold run, bind. rewrite Hl. reflexivity.
Qed.

(** X5. Operations awaited one after the other leave, in the trace, the
    calls of each in the order the operations were started, and nothing
    else; and the callback references in use stay older than the next one
    to be handed out, so no two calls ever share one. *)
Theorem operations_in_sequence (ops : list operation) (w : world E) :
  trace (run_all JSON_stringify ops w) =
  (trace w ++ List.concat (calls_of JSON_stringify <$> ops))%list /\
  (slots_below w -> slots_below (run_all JSON_stringify ops w)).
Proof.
  revert w. induction ops as [|o ops IH]; intros w.
  - simpl. rewrite app_nil_r. split; [reflexivity | auto].
  - change (run_all JSON_stringify (o :: ops) w)
      with (run_all JSON_stringify ops
              (snd (run (perform JSON_stringify o) w))).
    destruct (IH (snd (run (perform JSON_stringify o) w))) as [Ht Hs].
    split.
    + rewrite Ht. destruct (perform_trace_engine o w) as [-> _].
      rewrite fmap_cons. simpl. rewrite <- app_assoc. reflexivity.
    + intros Hw. apply Hs, perform_slots_below, Hw.
Qed.

End Calls.

(** A [deserialize] stopped at the version gate leaves the world alone. *)
Lemma one_native_call_per_operation_witness :
  snd (run (perform stringify_ok (op_deserialize serialized_v1))
         (initial scripted [accepted 0 (Num 3)])) =
  initial scripted [accepted 0 (Num 3)].
Proof.
  apply (one_native_call_per_operation scripted stringify_ok
           (op_deserialize serialized_v1)
           (initial scripted [accepted 0 (Num 3)])).
  reflexivity.
Defined.

(** Three operations in a row, the second failing at the version gate. *)
Lemma operations_in_sequence_witness :
  slots_below
    (run_all stringify_ok
       [op_sendOffer sample_credential sample_connection;
        op_deserialize serialized_v1;
        op_sendCredential sample_credential sample_connection]
       (initial scripted [])).
Proof.
  apply (operations_in_sequence scripted stringify_ok).
  intros k [x Hx]. simpl in Hx. rewrite lookup_empty in Hx. discriminate.
Defined.

(** ** What create and deserialize leave in the object *)

Section Built.

Variable E : Engine.
Variable JSON_stringify : IIssuerCredentialVCXAttributes -> completion string.

(** X6. With absent attributes [create] never consults the encoder: it
    behaves the same under every encoder, one that always throws
    included, and its native call carries the attributes as absent. *)
Theorem create_without_attributes (d : IIssuerCredentialCreateData)
    (w : world E) :
  cd_attr d = None ->
  (forall JSON_stringify' :
            IIssuerCredentialVCXAttributes -> completion string,
      run (create JSON_stringify d) w = run (create JSON_stringify' d) w) /\
  trace (snd (run (create JSON_stringify d) w)) =
  (trace w ++
   [vcx_issuer_create_credential
      0 (cd_sourceId d) (cd_credDefHandle d) (cd_issuerDid d)
      None (cd_credentialName d) (cd_price d)])%list.
Proof.
  intros Ha. split.
  - intros JSON_stringify'. unfold create. rewrite Ha. reflexivity.
  - assert (stringified JSON_stringify (cd_attr d) = Normal None) as Hs
      by (rewrite Ha; reflexivity).
    apply (bridges_trace E _ _ _ _
             (create_bridges E JSON_stringify d None Hs) w).
Qed.

(** X7. The credential [create] resolves with answers its getters with
    what [create] was given: source id, credential definition handle,
    credential name, attributes and price. *)
Theorem create_keeps_parameters (d : IIssuerCredentialCreateData)
    (w : world E) (cred : IssuerCredential) :
  fst (run (create JSON_stringify d) w) = Resolved cred ->
  sourceId cred = cd_sourceId d /\
  credDefHandle cred = cd_credDefHandle d /\
  credentialName cred = cd_credentialName d /\
  attr cred = cd_attr d /\
  price cred = cd_price d.
Proof.
  intros Hr. apply create_resolved in Hr as (h & ->). repeat split.
Qed.

(** X8. The credential [deserialize] resolves with does not get back the
    parameters of the object that was serialized: whatever the data, its
    getters answer credential definition handle -1, an empty credential
    name, an empty attribute mapping and price "0". *)
Theorem deserialize_resets_parameters (credentialData : ISerializedData)
    (w : world E) (cred : IssuerCredential) :
  fst (run (deserialize credentialData) w) = Resolved cred ->
  credDefHandle cred = -1 /\
  credentialName cred = "" /\
  attr cred = Some [] /\
  price cred = "0".
Proof.
  intros Hr. apply deserialize_resolved in Hr as (_ & h & ->). repeat split.
Qed.

(** X9. Two rejections of [deserialize] at the version gate are equal
    only if the two version tags are: the tag can be told from the
    error. *)
Theorem unsupported_versions_are_told_apart (d1 d2 : ISerializedData)
    (w1 w2 : world E) :
  version d1 <> "2.0" ->
  version d2 <> "2.0" ->
  fst (run (deserialize d1) w1) = fst (run (deserialize d2) w2) ->
  version d1 = version d2.
Proof.
  intros H1 H2. unfold run, bind.
  rewrite (deserialize_gate E d1 w1 H1), (deserialize_gate E d2 w2 H2).
  simpl. intros [= Heq].
  apply (f_equal json_unescape_all) in Heq.
  rewrite !json_unescape_escape_all in Heq. congruence.
Qed.

(** X10. The operations of an existing object read the handle of the
    object and nothing else of it, the two message operations the source
    id as well: on objects that agree on these they make the same call
    and end the same way, whatever attributes, name and price the
    objects hold. *)
Theorem operations_read_only_the_handle (this this' : IssuerCredential)
    (connection : Connection) (myPwDid : string) (w : world E) :
  handle this = handle this' ->
  run (sendOffer this connection) w = run (sendOffer this' connection) w /\
  run (sendCredential this connection) w =
  run (sendCredential this' connection) w /\
  run (revokeCredential this) w = run (revokeCredential this') w /\
  run (revokeCredentialLocal this) w = run (revokeCredentialLocal this') w /\
  run (getThreadId this) w = run (getThreadId this') w /\
  run (getRevRegId this) w = run (getRevRegId this') w /\
  (sourceId this = sourceId this' ->
   run (getCredentialOfferMsg this) w = run (getCredentialOfferMsg this') w /\
   run (getCredentialMsg this myPwDid) w =
   run (getCredentialMsg this' myPwDid) w).
Proof.
  intros Hh.
  unfold sendOffer, sendCredential, revokeCredential, revokeCredentialLocal,
    getThreadId, getRevRegId, getCredentialOfferMsg, getCredentialMsg.
  rewrite Hh. do 6 (split; [reflexivity|]).
  intros Hs. rewrite Hs. split; reflexivity.
Qed.

End Built.

(** [create] without attributes under the encoder that always throws. *)
Lemma create_without_attributes_witness :
  trace (snd (run (create stringify_fails create_without_attr)
                (initial scripted []))) =
  [vcx_issuer_create_credential 0 "12" 7 "did" None "Drivers Licence" "0"].
Proof.
  apply (create_without_attributes scripted stringify_fails
           create_without_attr (initial scripted [])).
  reflexivity.
Defined.

(** The sample credential created under handle 3. *)
Lemma create_keeps_parameters_witness :
  attr
    (_setHandle 3
       (new_IssuerCredential "12"
          {| p_credDefHandle := 7;
             p_credentialName := "Drivers Licence";
             p_attr := Some [("state", "UT")];
             p_price := "0" |})) =
  Some [("state", "UT")].
Proof.
  apply (create_keeps_parameters scripted stringify_ok sample_create
           (initial scripted [accepted 0 (Num 3)])).
  reflexivity.
Defined.

(** The object read back from the sample data under handle 3. *)
Lemma deserialize_resets_parameters_witness :
  credDefHandle
    (_setHandle 3
       (new_IssuerCredential "12"
          {| p_credDefHandle := -1;
             p_credentialName := "";
             p_attr := Some [];
             p_price := "0" |})) = -1.
Proof.
  apply (deserialize_resets_parameters scripted serialized_v2
           (initial scripted [accepted 0 (Num 3)])).
  reflexivity.
Defined.

(** The tags 1.0 and 3.0 give different errors. *)
Lemma unsupported_versions_are_told_apart_witness :
  fst (run (deserialize serialized_v1) (initial scripted [])) <>
  fst (run (deserialize serialized_v3) (initial scripted [])).
Proof.
  intros Heq.
  assert (version serialized_v1 = version serialized_v3) as Hv.
  { apply (unsupported_versions_are_told_apart scripted
             serialized_v1 serialized_v3
             (initial scripted []) (initial scripted []));
      [discriminate | discriminate | exact Heq]. }
  discriminate Hv.
Defined.

(** Two objects on handle 5 that differ in everything else. *)
Lemma operations_read_only_the_handle_witness :
  run (sendOffer sample_credential sample_connection) (initial scripted []) =
  run (sendOffer
         (_setHandle 5
            (new_IssuerCredential "other"
               {| p_credDefHandle := 1;
                  p_credentialName := "";
                  p_attr := None;
                  p_price := "9" |}))
         sample_connection)
    (initial scripted []).
Proof.
  apply (operations_read_only_the_handle scripted sample_credential
           (_setHandle 5
              (new_IssuerCredential "other"
                 {| p_credDefHandle := 1;
                    p_credentialName := "";
                    p_attr := None;
                    p_price := "9" |}))
           sample_connection "pwdid" (initial scripted [])).
  reflexivity.
Defined.

(** ** The transition table *)

Lemma follow_stuck (ts : list trigger) :
  fold_left
    (fun acc t =>
       match acc with
       | Some s => transition s t
       | None => None
       end)
    ts None = None.
Proof. induction ts as [|t ts IH]; [reflexivity | exact IH]. Qed.

(** X11. In the transition table of the class header [Accepted] is
    final: along any list of triggers the table admits from [Accepted]
    the state stays [Accepted], and each of those triggers is a received
    Ack. *)
Theorem accepted_is_final (ts : list trigger) (s : IssuanceState) :
  follow Accepted ts = Some s ->
  s = Accepted /\ Forall (fun t => t = trg_received Ack) ts.
Proof.
  unfold follow. induction ts as [|t ts IH]; simpl.
  - intros [= <-]. split; [reflexivity | constructor].
  - destruct t as [| |[| |]|]; simpl;
      try (rewrite follow_stuck; discriminate).
    intros H. destruct (IH H) as [-> Hall].
    split; [reflexivity | constructor; [reflexivity | exact Hall]].
Qed.

(** Two acknowledgements received in [Accepted]. *)
Lemma accepted_is_final_witness :
  Accepted = Accepted /\
  Forall (fun t => t = trg_received Ack)
    [trg_received Ack; trg_received Ack].
Proof.
  apply (accepted_is_final [trg_received Ack; trg_received Ack] Accepted).
  reflexivity.
Defined.

(** ** How every operation ends *)

Section Ending.

Variable E : Engine.
Variable JSON_stringify : IIssuerCredentialVCXAttributes -> completion string.











End Ending.


